(** * gsts: the credentials manager ([src/credentials-manager.js])

    A shallow embedding of the [CredentialsManager] class and the
    properties of its five methods: role resolution
    ([prepareRoleWithSAML]), the assume-role exchange
    ([assumeRoleWithSAML]), the profile store ([loadCredentials],
    [saveCredentials]) and the session validity check
    ([getSessionExpirationFromCredentials]).

    The methods are [async] functions over a file system, a clock, a
    logger and two AWS clients.  They are embedded as computations in a
    state-and-exception monad over a [World]; every call that leaves the
    process (log line, file operation, AWS request) is appended to the
    world's [trace], so that "is called with", "is not performed" and
    "is emitted" are statements about that trace. *)

From stdpp Require Import gmap strings list fin_maps pretty.
From Stdlib Require Import ZArith Lia Ascii String.

Set Warnings "-register-all".
Open Scope Z_scope.

(** ** JavaScript values *)

Module JS.

(** Numbers.  Every number the class handles is an integer: epoch
    milliseconds (at most 8.64e15 in magnitude, below 2^53, so that the
    subtraction of the delta is exact in IEEE doubles) and durations in
    seconds.  [NaN] is the time value of an invalid [Date]. *)
Inductive jsnum :=
| NaN
| Num (z : Z).

(** [a - b] *)
Definition sub (a b : jsnum) : jsnum :=
  match a, b with
  | Num x, Num y => Num (x - y)
  | _, _ => NaN
  end.

(** [a > b]: false as soon as one side is [NaN]. *)
Definition gt (a b : jsnum) : bool :=
  match a, b with
  | Num x, Num y => bool_decide (x > y)
  | _, _ => false
  end.

(** What [ini.parse] can put in an object, [undefined], and what a plain
    object inherits.  An object is the list of its own properties in the
    order [Object.keys] gives them; its prototype is [Object.prototype],
    and [JInherited name] is the member [name] of that prototype (a
    built-in function or, for [__proto__], the prototype itself). *)
Inductive jsval :=
| JUndefined
| JNull
| JBool (b : bool)
| JNum (n : jsnum)
| JStr (s : string)
| JArr (items : list jsval)
| JInherited (name : string)
| JObj (props : list (string * jsval)).

Abbreviation object := (list (string * jsval)).

Definition num_truthy (n : jsnum) : bool :=
  match n with
  | NaN => false
  | Num z => bool_decide (z ≠ 0)
  end.

Definition str_truthy (s : string) : bool := bool_decide (s ≠ "").

(** ToBoolean, as applied by [if (v)] and [!v]. *)
Definition truthy (v : jsval) : bool :=
  match v with
  | JUndefined | JNull => false
  | JBool b => b
  | JNum n => num_truthy n
  | JStr s => str_truthy s
  | JArr _ | JInherited _ | JObj _ => true
  end.

(** ToBoolean of an optional parameter: [None] is [undefined]. *)
Definition opt_truthy {A} (t : A -> bool) (o : option A) : bool :=
  match o with
  | None => false
  | Some a => t a
  end.

(** The own property [k] of an object: [o !! k]. *)
Fixpoint own_property (k : string) (o : object) : option jsval :=
  match o with
  | [] => None
  | (k', v) :: o' => if decide (k' = k) then Some v else own_property k o'
  end.

#[global] Instance object_lookup : Lookup string jsval object := own_property.
#[global] Instance object_empty : Empty object := [].
#[global] Instance object_dom : Dom object (gset string) :=
  fun o => list_to_set (o.*1).

(** The array index a property key writes, if it is one: a decimal
    numeral without leading zero, below 2^32 - 1.  Such keys come first
    in an object, in ascending order. *)
Definition array_index (k : string) : option N :=
  let l := list_ascii_of_string k in
  if bool_decide (l ≠ [] ∧ (List.length l = 1%nat ∨ head l ≠ Some "0"%char)
                  ∧ Forall (fun c => (48 <= N_of_ascii c <= 57)%N) l)
  then let n := foldl (fun acc c => (acc * 10 + (N_of_ascii c - 48))%N) 0%N l in
       if bool_decide (n < 4294967295)%N then Some n else None
  else None.

Fixpoint replace_property (k : string) (v : jsval) (o : object) : object :=
  match o with
  | [] => []
  | (k', v') :: o' =>
      if decide (k' = k) then (k, v) :: o' else (k', v') :: replace_property k v o'
  end.

Fixpoint insert_index (n : N) (k : string) (v : jsval) (o : object) : object :=
  match o with
  | [] => [(k, v)]
  | (k', v') :: o' =>
      match array_index k' with
      | Some m => if bool_decide (m < n)%N then (k', v') :: insert_index n k v o'
                  else (k, v) :: o
      | None => (k, v) :: o
      end
  end.

(** [o[k] = v] on a plain object, written [<[k := v]> o].  An own
    property keeps its place; a new one goes after the others, or among
    the array indices if it is one; and the key [__proto__], when it is
    not an own property, reaches the setter of [Object.prototype], which
    changes the prototype and adds no property. *)
Definition assign (k : string) (v : jsval) (o : object) : object :=
  if o !! k is Some _ then replace_property k v o
  else if decide (k = "__proto__") then o
  else match array_index k with
       | Some n => insert_index n k v o
       | None => o ++ [(k, v)]
       end.

#[global] Instance object_insert : Insert string jsval object := assign.

(** The names of the members of [Object.prototype]. *)
Definition Object_prototype : list string :=
  ["constructor"; "__defineGetter__"; "__defineSetter__"; "hasOwnProperty";
   "__lookupGetter__"; "__lookupSetter__"; "isPrototypeOf"; "propertyIsEnumerable";
   "toString"; "valueOf"; "__proto__"; "toLocaleString"].

(** [o[k]] on a plain object: the own property, or else the member of
    [Object.prototype] of that name. *)
Definition member (o : object) (k : string) : jsval :=
  match o !! k with
  | Some v => v
  | None => if bool_decide (k ∈ Object_prototype) then JInherited k else JUndefined
  end.

(** The property key of an optional string used as an index. *)
Definition prop_key (k : option string) : string := default "undefined" k.

(** [a > b] where [a] may be [undefined]. *)
Definition opt_gt (a : option jsnum) (b : jsnum) : bool :=
  match a with
  | None => false
  | Some a => gt a b
  end.

(** [v.k] for a property [k] that is neither an index nor built in:
    primitives, arrays and functions have none. *)
Definition get (v : jsval) (k : string) : jsval :=
  match v with
  | JObj o => member o k
  | _ => JUndefined
  end.

End JS.
Import JS.

(** ** Data of the program *)

(** A role as the SAML parser yields it and as the methods read it:
    [role.name], [role.roleArn], [role.principalArn] and the optional
    [role.sessionDuration]. *)
Record Role := mkRole {
  name : string;
  roleArn : string;
  principalArn : string;
  sessionDuration : option jsnum
}.

(** The object returned by [prepareRoleWithSAML]. *)
Record RoleSet := mkRoleSet {
  roles : list Role;
  samlAssertion : string
}.

(** Parameters of [STS.assumeRoleWithSAML]. *)
Record StsRequest := mkStsRequest {
  DurationSeconds : option jsnum;
  PrincipalArn : string;
  RoleArn : string;
  SAMLAssertion : string
}.

(** [stsResponse.Credentials]; [Expiration] is a [Date], held as its
    time value. *)
Record StsCredentials := mkStsCredentials {
  AccessKeyId : string;
  SecretAccessKey : string;
  Expiration : jsnum;
  SessionToken : string
}.

(** The destructured third argument of [saveCredentials]. *)
Record CredentialFields := mkCredentialFields {
  accessKeyId : string;
  secretAccessKey : string;
  sessionExpiration : jsnum;
  sessionToken : string
}.

(** The object returned by [getSessionExpirationFromCredentials];
    [expiresAt = None] is [null]. *)
Record ValidityResult := mkValidity {
  isValid : bool;
  expiresAt : option jsnum
}.

(** ** Exceptions *)

Inductive error :=
| RoleNotFoundError (available : list Role)   (* errors.RoleNotFoundError *)
| SystemError (code : string)                 (* rejected fs promise, [e.code] *)
| ServiceError (message : string)             (* rejected parser or AWS promise *)
| RangeError                                  (* toISOString of an invalid Date *)
| TypeError.                                  (* property write on a primitive *)

(** [e.code] *)
Definition error_code (e : error) : option string :=
  match e with
  | SystemError c => Some c
  | _ => None
  end.

Inductive Result (A : Type) :=
| Ok (a : A)
| Throw (e : error).
Arguments Ok {A} a.
Arguments Throw {A} e.

(** ** The world outside the process *)

Inductive level := Debug | Warn.

(** One entry per call that leaves the process, oldest first.  A log
    entry keeps the level and the format string (without the quotation
    marks the source puts around %s); the interpolated arguments are not
    kept. *)
Inductive event :=
| EvLog (lvl : level) (format : string)
| EvReadFile (path : string)
| EvMkdir (dir : string)
| EvWriteFile (path content : string)
| EvGetRole (roleName : string)
| EvAssumeRoleWithSAML (req : StsRequest).

(** A path of the file system holds data, or is a directory, or is a
    node on which every operation is rejected with the given code
    (EACCES, ELOOP, ...).  A path that holds nothing is one where a file
    or a directory can be made. *)
Inductive fnode :=
| FData (content : string)
| FDir
| FFail (code : string).

Record World := mkWorld {
  files : gmap string fnode;
  now : Z;                     (* Date.now(), epoch milliseconds *)
  trace : list event
}.

Definition record_event (ev : event) (w : World) : World :=
  mkWorld (files w) (now w) (trace w ++ [ev]).

Definition set_files (fs : gmap string fnode) (w : World) : World :=
  mkWorld fs (now w) (trace w).

(** ** The monad of the async methods *)

Definition M (A : Type) : Type := World -> Result A * World.

Definition ret {A} (a : A) : M A := fun w => (Ok a, w).

Definition throw {A} (e : error) : M A := fun w => (Throw e, w).

Definition bind {A B} (m : M A) (k : A -> M B) : M B :=
  fun w =>
    match m w with
    | (Ok a, w1) => k a w1
    | (Throw e, w1) => (Throw e, w1)
    end.

(** [try { m } catch (e) { h e }] *)
Definition try_catch {A} (m : M A) (h : error -> M A) : M A :=
  fun w =>
    match m w with
    | (Ok a, w1) => (Ok a, w1)
    | (Throw e, w1) => h e w1
    end.

(** A settled promise or a returned value, taken into the monad. *)
Definition settle {A} (r : Result A) : M A := fun w => (r, w).

Declare Scope js_scope.
Delimit Scope js_scope with js.
Notation "'await' x ':=' m 'in' k" := (bind m (fun x => k))
  (at level 10, x name, m at level 100, k at level 200) : js_scope.
Notation "m '>>' k" := (bind m (fun _ => k))
  (at level 100, k at level 200, right associativity) : js_scope.
Open Scope js_scope.

Definition emit (ev : event) : M unit := fun w => (Ok tt, record_event ev w).

(** [this.logger.debug] and [this.logger.warn] *)
Definition logger_debug (format : string) : M unit := emit (EvLog Debug format).
Definition logger_warn (format : string) : M unit := emit (EvLog Warn format).

(** [Date.now()] *)
Definition Date_now : M Z := fun w => (Ok (now w), w).

(** [fs.readFile(path, 'utf-8')] *)
Definition fs_readFile (path : string) : M string :=
  emit (EvReadFile path) >>
  fun w =>
    match files w !! path with
    | None => (Throw (SystemError "ENOENT"), w)
    | Some (FFail c) => (Throw (SystemError c), w)
    | Some FDir => (Throw (SystemError "EISDIR"), w)
    | Some (FData s) => (Ok s, w)
    end.

(** What [fs.mkdir(dir, { recursive: true })] does to the files: a
    missing directory is made, an existing one is left as it is, which
    with this option is no error, and over a file the call is rejected
    with EEXIST.  The call also makes the directories above [dir] that
    are missing; the world keeps track of [dir] alone, and the properties
    say nothing of the paths above it. *)
Definition mkdir_effect (dir : string) (fs : gmap string fnode)
  : Result (gmap string fnode) :=
  match fs !! dir with
  | None => Ok (<[dir := FDir]> fs)
  | Some FDir => Ok fs
  | Some (FFail c) => Throw (SystemError c)
  | Some (FData _) => Throw (SystemError "EEXIST")
  end.

Definition fs_mkdir (dir : string) : M unit :=
  emit (EvMkdir dir) >>
  fun w =>
    match mkdir_effect dir (files w) with
    | Ok fs => (Ok tt, set_files fs w)
    | Throw e => (Throw e, w)
    end.

(** What [fs.writeFile(path, content)] does to the files, step by step:
    the file is opened with flag 'w', which creates it or empties it, and
    then the content is written.  The directory of [path] is not looked
    at: the class writes only after [fs.mkdir] of that directory has
    returned. *)
Definition writeFile_steps (path content : string) (fs : gmap string fnode)
  : Result (gmap string fnode * gmap string fnode) :=
  match fs !! path with
  | Some (FFail c) => Throw (SystemError c)
  | Some FDir => Throw (SystemError "EISDIR")
  | _ => Ok (<[path := FData ""]> fs, <[path := FData content]> fs)
  end.

(** [fs.writeFile(path, content)]: one direct overwrite of [path]. *)
Definition fs_writeFile (path content : string) : M unit :=
  emit (EvWriteFile path content) >>
  fun w =>
    match writeFile_steps path content (files w) with
    | Ok (opened, written) => (Ok tt, set_files written w)
    | Throw e => (Throw e, w)
    end.

(** ** Collaborators that are not part of the class

    The SAML parser ([./parser]), the AWS clients, the [ini] package,
    [path.dirname] and the [Date] conversions are used by the class and
    defined elsewhere.  The methods are stated for any of them. *)
Record Externals := mkExternals {
  (* this.parser.parseSamlResponse(response, customRoleArn) *)
  parseSamlResponse : string -> option string -> Result (list Role * string);
  (* (new IAM()).getRole({RoleName}).promise(), its Role.MaxSessionDuration *)
  IAM_getRole : string -> Result Z;
  (* (new STS()).assumeRoleWithSAML(req).promise(), its Credentials *)
  STS_assumeRoleWithSAML : StsRequest -> Result StsCredentials;
  ini_parse : string -> object;
  ini_encode : object -> string;
  dirname : string -> string;
  (* new Date(v).getTime() *)
  Date_getTime : jsval -> jsnum;
  (* the text of d.toISOString() for a valid time value *)
  ISO_8601 : Z -> string
}.

(** ** The class *)

(** [const SESSION_EXPIRATION_DELTA = 30e3; // 30 seconds] *)
Definition SESSION_EXPIRATION_DELTA : Z := 30000.

(** The fields of an instance that the methods read; [logger] and
    [parser] are collaborators. *)
Record CredentialsManager := mkCredentialsManager {
  sessionExpirationDelta : Z
}.

(** [constructor(logger)] *)
Definition constructor : CredentialsManager :=
  mkCredentialsManager SESSION_EXPIRATION_DELTA.

(** The format of the warning of [assumeRoleWithSAML]. *)
Definition clamp_warning : string :=
  "Custom session duration %d exceeds maximum session duration of %d allowed for role. Please set --aws-session-duration=%d or $AWS_SESSION_DURATION=%d to surpress this warning".

Section Methods.

Variable E : Externals.
Variable this : CredentialsManager.

(** [sessionExpiration.toISOString()] throws on an invalid date. *)
Definition toISOString (d : jsnum) : M string :=
  match d with
  | NaN => throw RangeError
  | Num t => ret (ISO_8601 E t)
  end.

Definition prepareRoleWithSAML (response : string) (customRoleArn : option string)
  : M RoleSet :=
  await parsed := settle (parseSamlResponse E response customRoleArn) in
  let '(roles, samlAssertion) := parsed in
  if negb (opt_truthy str_truthy customRoleArn) then
    logger_debug "A custom role ARN not been set so returning all parsed roles" >>
    ret (mkRoleSet roles samlAssertion)
  else
    let customRole :=
      find (fun role => bool_decide (Some (roleArn role) = customRoleArn)) roles in
    match customRole with
    | None => throw (RoleNotFoundError roles)
    | Some customRole =>
        logger_debug "Found custom role ARN %s with principal ARN %s" >>
        ret (mkRoleSet [customRole] samlAssertion)
    end.

(** The part of [assumeRoleWithSAML] before the exchange: the value
    of [sessionDuration] when [STS.assumeRoleWithSAML] is called. *)
Definition sessionDurationFor (role : Role) (customSessionDuration : option jsnum)
  : M (option jsnum) :=
  let sessionDuration := sessionDuration role in
  if opt_truthy num_truthy customSessionDuration then
    let sessionDuration := customSessionDuration in
    await MaxSessionDuration := emit (EvGetRole (name role)) >>
                                settle (IAM_getRole E (name role)) in
    if opt_gt customSessionDuration (Num MaxSessionDuration) then
      let sessionDuration := Some (Num MaxSessionDuration) in
      logger_warn clamp_warning >>
      ret sessionDuration
    else ret sessionDuration
  else ret sessionDuration.

Definition loadCredentials (path : string) (profile : option string) : M jsval :=
  await credentials :=
    try_catch
      (await credentials := fs_readFile path in ret (Some credentials))
      (fun e =>
         if bool_decide (error_code e = Some "ENOENT") then
           logger_debug "Credentials file does not exist at %s" >>
           ret None                                   (* return; *)
         else throw e) in
  match credentials with
  | None => ret JUndefined
  | Some credentials =>
      let config := ini_parse E credentials in
      if opt_truthy str_truthy profile then
        ret (member config (prop_key profile))
      else
        ret (JObj config)
  end.

(** The object built by the assignments to [credentials[profile]]. *)
Definition profile_entry (accessKeyId secretAccessKey expiration sessionToken : string)
  : object :=
  <["aws_session_token" := JStr sessionToken]>
    (<["aws_session_expiration" := JStr expiration]>
       (<["aws_secret_access_key" := JStr secretAccessKey]>
          (<["aws_access_key_id" := JStr accessKeyId]> ∅))).

Definition saveCredentials (path profile : string) (fields : CredentialFields) : M unit :=
  await credentials := loadCredentials path None in
  let credentials := if negb (truthy credentials) then JObj ∅ else credentials in
  match credentials with
  | JObj credentials =>
      await expiration := toISOString (sessionExpiration fields) in
      let credentials :=
        <[profile := JObj (profile_entry (accessKeyId fields) (secretAccessKey fields)
                                         expiration (sessionToken fields))]> credentials in
      fs_mkdir (dirname E path) >>
      fs_writeFile path (ini_encode E credentials) >>
      logger_debug "The credentials have been stored in %s under AWS profile %s with contents %o"
  | _ => throw TypeError
  end.

(** The part of [assumeRoleWithSAML] from the exchange on. *)
Definition exchangeAndSave (samlAssertion awsSharedCredentialsFile awsProfile : string)
    (role : Role) (sessionDuration : option jsnum) : M unit :=
  let req := mkStsRequest sessionDuration (principalArn role) (roleArn role) samlAssertion in
  await Credentials := emit (EvAssumeRoleWithSAML req) >>
                       settle (STS_assumeRoleWithSAML E req) in
  logger_debug "Role ARN %s has been assumed %O" >>
  saveCredentials awsSharedCredentialsFile awsProfile
    (mkCredentialFields (AccessKeyId Credentials) (SecretAccessKey Credentials)
                        (Expiration Credentials) (SessionToken Credentials)).

Definition assumeRoleWithSAML (samlAssertion awsSharedCredentialsFile awsProfile : string)
    (role : Role) (customSessionDuration : option jsnum) : M unit :=
  await sessionDuration := sessionDurationFor role customSessionDuration in
  exchangeAndSave samlAssertion awsSharedCredentialsFile awsProfile role sessionDuration.

Definition getSessionExpirationFromCredentials (path : string) (profile : option string)
  : M ValidityResult :=
  logger_debug "Attempting to retrieve session expiration credentials" >>
  await credentials := loadCredentials path profile in
  if negb (truthy credentials) then
    ret (mkValidity false None)
  else if negb (truthy (get credentials "aws_session_expiration")) then
    logger_debug "Session expiration date not found" >>
    ret (mkValidity false None)
  else
    let adjusted :=
      sub (Date_getTime E (get credentials "aws_session_expiration"))
          (Num (sessionExpirationDelta this)) in
    await current := Date_now in
    if gt adjusted (Num current) then
      logger_debug "Session is expected to be valid until %s minus expiration delta of %d seconds" >>
      ret (mkValidity true (Some adjusted))
    else
      logger_debug "Session has expired on %s" >>
      ret (mkValidity false (Some adjusted)).

End Methods.

(** ** A concrete set of collaborators

    Used to run the methods on concrete inputs: a line-based codec for
    the section-keyed format, UTC timestamps in the 24-character form of
    [toISOString], an identity service with one answer per call. *)

Module Demo.

Definition digit (d : Z) : ascii := ascii_of_nat (48 + Z.to_nat d).

(** The last [n] decimal digits of [z]. *)
Fixpoint digits (n : nat) (z : Z) : string :=
  match n with
  | O => ""
  | S n' => digits n' (z / 10) +:+ String (digit (z mod 10)) ""
  end.

(** Proleptic Gregorian date of a day number (days since 1970-01-01). *)
Definition civil_from_days (days : Z) : Z * Z * Z :=
  let z := days + 719468 in
  let era := z / 146097 in
  let doe := z - era * 146097 in
  let yoe := (doe - doe / 1460 + doe / 36524 - doe / 146096) / 365 in
  let doy := doe - (365 * yoe + yoe / 4 - yoe / 100) in
  let mp := (5 * doy + 2) / 153 in
  let d := doy - (153 * mp + 2) / 5 + 1 in
  let m := if bool_decide (mp < 10) then mp + 3 else mp - 9 in
  let y := yoe + era * 400 + (if bool_decide (m <= 2) then 1 else 0) in
  (y, m, d).

Definition days_from_civil (y m d : Z) : Z :=
  let y := if bool_decide (m <= 2) then y - 1 else y in
  let era := y / 400 in
  let yoe := y - era * 400 in
  let mp := if bool_decide (m > 2) then m - 3 else m + 9 in
  let doy := (153 * mp + 2) / 5 + d - 1 in
  let doe := yoe * 365 + yoe / 4 - yoe / 100 + doy in
  era * 146097 + doe - 719468.

(** YYYY-MM-DDTHH:mm:ss.sssZ, for the years 0000 to 9999. *)
Definition iso_8601 (t : Z) : string :=
  let days := t / 86400000 in
  let ms := t mod 86400000 in
  let '(y, m, d) := civil_from_days days in
  digits 4 y +:+ "-" +:+ digits 2 m +:+ "-" +:+ digits 2 d +:+ "T" +:+
  digits 2 (ms / 3600000) +:+ ":" +:+ digits 2 (ms / 60000 mod 60) +:+ ":" +:+
  digits 2 (ms / 1000 mod 60) +:+ "." +:+ digits 3 (ms mod 1000) +:+ "Z".

(** The number written by a run of decimal digits. *)
Fixpoint number (acc : Z) (s : list ascii) : option Z :=
  match s with
  | [] => Some acc
  | c :: s' =>
      let n := Z.of_nat (nat_of_ascii c) in
      if bool_decide (48 <= n <= 57) then number (acc * 10 + (n - 48)) s' else None
  end.

Definition field (from len : nat) (s : list ascii) : option Z :=
  number 0 (take len (drop from s)).

Definition parse_iso_8601 (s : string) : jsnum :=
  let l := list_ascii_of_string s in
  if bool_decide (List.length l = 24%nat
                  ∧ take 1 (drop 4 l) = ["-"%char] ∧ take 1 (drop 7 l) = ["-"%char]
                  ∧ take 1 (drop 10 l) = ["T"%char] ∧ take 1 (drop 13 l) = [":"%char]
                  ∧ take 1 (drop 16 l) = [":"%char] ∧ take 1 (drop 19 l) = ["."%char]
                  ∧ take 1 (drop 23 l) = ["Z"%char]) then
    match field 0 4 l, field 5 2 l, field 8 2 l, field 11 2 l, field 14 2 l,
          field 17 2 l, field 20 3 l with
    | Some y, Some m, Some d, Some h, Some mi, Some sec, Some ms =>
        Num (days_from_civil y m d * 86400000 + h * 3600000 + mi * 60000 + sec * 1000 + ms)
    | _, _, _, _, _, _, _ => NaN
    end
  else NaN.

(** [new Date(v).getTime()] on the strings [iso_8601] writes; any other
    value is taken as an invalid date. *)
Definition date_getTime (v : jsval) : jsnum :=
  match v with
  | JStr s => parse_iso_8601 s
  | _ => NaN
  end.

(** The path without its last segment. *)
Fixpoint strip_last (l : list ascii) : list ascii :=
  match l with
  | [] => []
  | c :: l' =>
      if bool_decide ("/"%char ∈ l') then c :: strip_last l' else []
  end.

Definition dirname (path : string) : string :=
  match strip_last (list_ascii_of_string path) with
  | [] => if bool_decide ("/"%char ∈ list_ascii_of_string path) then "/" else "."
  | d => string_of_list_ascii d
  end.

(** *** The section-keyed text format

    [encode] and [parse] follow [ini.encode] and [ini.parse] (ini 1.3)
    on the objects and texts of a credentials file: keys, section names
    and values made of letters, digits and the characters / : + - _ .
    (no dot in a section name), values that are strings, booleans or
    null, and "\n" as end of line.  Quoting, escapes, comments at the end
    of a line, arrays, dotted section names and sections named after a
    member of [Object.prototype], whose keys [ini.parse] writes into an
    object shared by the whole process, are outside that range. *)

Definition newline : ascii := ascii_of_nat 10.
Definition eol : string := String newline "".

(** [safe(val)] followed by the conversion to string of [+=]: the
    string itself, the JSON text of a boolean, of null or of a number,
    and [undefined] for [undefined] and for a function, which have no
    JSON text. *)
Definition show (v : jsval) : string :=
  match v with
  | JStr s => s
  | JBool true => "true"
  | JBool false => "false"
  | JNull | JNum NaN => "null"
  | JNum (Num z) => pretty z
  | _ => "undefined"
  end.

(** [encode(obj, { section })]: the lines of the scalar properties,
    under the header of the section when the section has a name and a
    line; then the objects among the properties, each as a section of
    its own, a blank line apart. *)
Fixpoint encode_in (section : string) (obj : jsval) {struct obj} : string :=
  match obj with
  | JObj o =>
      let out :=
        (fix scalars (o : object) : string :=
           match o with
           | [] => ""
           | (k, JObj _) :: o' | (k, JArr _) :: o' => scalars o'
           | (k, v) :: o' => k +:+ "=" +:+ show v +:+ eol +:+ scalars o'
           end) o in
      let out :=
        if bool_decide (section ≠ "" ∧ out ≠ "")
        then "[" +:+ section +:+ "]" +:+ eol +:+ out
        else out in
      (fix children (o : object) (out : string) : string :=
         match o with
         | [] => out
         | (k, v) :: o' =>
             match v with
             | JObj _ =>
                 let child :=
                   encode_in ((if bool_decide (section ≠ "") then section +:+ "." else "")
                              +:+ k) v in
                 children o'
                   (out +:+ (if bool_decide (out ≠ "" ∧ child ≠ "") then eol else "")
                    +:+ child)
             | _ => children o' out
             end
         end) o out
  | _ => ""
  end.

Definition encode (o : object) : string := encode_in "" (JObj o).

(** The lines of a text. *)
Fixpoint lines (cur : list ascii) (s : list ascii) : list (list ascii) :=
  match s with
  | [] => [reverse cur]
  | c :: s' =>
      if bool_decide (c = newline) then reverse cur :: lines [] s'
      else lines (c :: cur) s'
  end.

(** A line cut at its first [=]. *)
Fixpoint key_value (key : list ascii) (l : list ascii) : option (string * string) :=
  match l with
  | [] => None
  | c :: l' =>
      if bool_decide (c = "="%char)
      then Some (string_of_list_ascii (reverse key), string_of_list_ascii l')
      else key_value (c :: key) l'
  end.

Definition value (s : string) : jsval :=
  if bool_decide (s = "true") then JBool true
  else if bool_decide (s = "false") then JBool false
  else if bool_decide (s = "null") then JNull
  else JStr s.

(** [p[key] = value], [p] being [out] or the section [out[section]]. *)
Definition set_in (out : object) (section : option string) (k : string) (v : jsval)
  : object :=
  match section with
  | None => <[k := v]> out
  | Some s =>
      match out !! s with
      | Some (JObj o) => <[s := JObj (<[k := v]> o)]> out
      | _ => out
      end
  end.

(** One line read into the object [out], [section] being the section
    the line falls in: an empty line or a comment is skipped, [[name]]
    opens the section [name] ([out[name] = out[name] || {}]),
    [key=value] sets a key, and a line without [=] sets its key to
    true. *)
Definition parse_line (st : object * option string) (l : list ascii)
  : object * option string :=
  let '(out, section) := st in
  match l with
  | [] => st
  | c :: l' =>
      if bool_decide (c = ";"%char ∨ c = "#"%char) then st
      else if bool_decide (c = "["%char ∧ last l' = Some "]"%char
                           ∧ "]"%char ∉ removelast l') then
        let s := string_of_list_ascii (removelast l') in
        let current := member out s in
        (<[s := if truthy current then current else JObj ∅]> out, Some s)
      else
        match key_value [] l with
        | None => (set_in out section (string_of_list_ascii l) (JBool true), section)
        | Some (k, v) =>
            if bool_decide (k = "") then st
            else (set_in out section k (value v), section)
        end
  end.

Definition parse (text : string) : object :=
  (foldl parse_line (∅, None) (lines [] (list_ascii_of_string text))).1.

Definition role_A : Role := mkRole "A" "arn:role/A" "arn:idp/X" (Some (Num 3600)).
Definition role_B : Role := mkRole "B" "arn:role/B" "arn:idp/X" None.

Definition credentials : StsCredentials :=
  mkStsCredentials "AKIAEXAMPLE" "secret" (Num 1700003600000) "token".

(** A role whose ARN is the empty string. *)
Definition role_blank : Role := mkRole "C" "" "arn:idp/X" None.

(** The parser finds the roles [rs] in every response; a role may be
    held for 7200 seconds at most. *)
Definition externals_for (rs : list Role) : Externals :=
  mkExternals
    (fun _ _ => Ok (rs, "assertion"))
    (fun _ => Ok 7200)
    (fun _ => Ok credentials)
    parse encode dirname date_getTime iso_8601.

Definition externals : Externals := externals_for [role_A; role_B].

Definition fields : CredentialFields :=
  mkCredentialFields "AKIAEXAMPLE" "secret" (Num 1700003600000) "token".

(** A machine with no file, at 2023-11-14T22:13:20.000Z. *)
Definition world : World := mkWorld ∅ 1700000000000 [].

Definition path : string := "/home/u/.aws/credentials".

(** The same machine with the text [text] in the credentials file. *)
Definition world_with (text : string) : World :=
  mkWorld (<[path := FData text]> {["/home/u/.aws" := FDir]}) 1700000000000 [].

(** A store with two profiles, the profile [profile] expiring at
    [expiration]. *)
Definition store (profile expiration : string) : object :=
  <[profile := JObj (profile_entry "AKIA1" "secret1" expiration "token1")]>
    (<["p2" := JObj (profile_entry "AKIA2" "secret2" "2023-11-15T00:00:00.000Z" "token2")]> ∅).

(** The same machine with a credentials file that cannot be read. *)
Definition locked_world : World :=
  mkWorld (<[path := FFail "EACCES"]> {["/home/u/.aws" := FDir]}) 1700000000000 [].


(** A store whose only profile has no expiration. *)
Definition store_without_expiration : object :=
  <["p3" := JObj (<["aws_access_key_id" := JStr "AKIA3"]> ∅)]> ∅.

(** The same collaborators with a token service that rejects every
    exchange. *)
Definition externals_rejecting : Externals :=
  mkExternals
    (fun _ _ => Ok ([role_A; role_B], "assertion"))
    (fun _ => Ok 7200)
    (fun _ => Throw (ServiceError "ExpiredToken"))
    parse encode dirname date_getTime iso_8601.

(** Two roles with the same ARN, reached through different identity
    providers. *)
Definition role_A' : Role := mkRole "A2" "arn:role/A" "arn:idp/Y" None.

(** A store whose profile p1 carries a region beside its four fields. *)
Definition store_with_region : object :=
  <["p1" := JObj (<["region" := JStr "eu-west-1"]>
                    (profile_entry "AKIA1" "secret1" "2023-11-14T22:13:51.000Z" "token1"))]> ∅.

Definition fields' : CredentialFields :=
  mkCredentialFields "AKIAOTHER" "secret'" (Num 1700007200000) "token'".

End Demo.

(** ** Vocabulary of the properties *)

(** The mapping [saveCredentials] starts from: the parsed file, or the
    empty object where there is no file. *)
Definition stored (E : Externals) (path : string) (w : World) : object :=
  match files w !! path with
  | Some (FData text) => ini_parse E text
  | _ => ∅
  end.

(** The mapping [saveCredentials] hands to [ini.encode]. *)
Definition merged (E : Externals) (path profile : string) (fields : CredentialFields)
    (expiration : string) (w : World) : object :=
  <[profile := JObj (profile_entry (accessKeyId fields) (secretAccessKey fields)
                                   expiration (sessionToken fields))]> (stored E path w).


(** The files after [fs.mkdir] of [dir] has returned: a missing
    directory is there, and what the path held is left. *)
Definition made (dir : string) (fs : gmap string fnode) : gmap string fnode :=
  match fs !! dir with
  | None => <[dir := FDir]> fs
  | Some _ => fs
  end.



(** The events that are neither a role lookup, nor a warning, nor an
    exchange: debug lines and file operations. *)
Definition silent (ev : event) : bool :=
  match ev with
  | EvGetRole _ | EvAssumeRoleWithSAML _ | EvLog Warn _ => false
  | EvLog Debug _ | EvReadFile _ | EvMkdir _ | EvWriteFile _ _ => true
  end.

(** * Properties *)

(** Unfolds the monad, so that a method applied to a world reduces. *)
Ltac run :=
  unfold logger_debug, logger_warn, Date_now,
         bind, try_catch, ret, throw, settle, emit in *;
  simpl in *.

(** ** Objects *)

Section Objects.

Implicit Types (o : object) (k j : string) (v : jsval).

Lemma lookup_cons o k j v :
  ((j, v) :: o) !! k = if decide (j = k) then Some v else o !! k.
Proof. reflexivity. Qed.

Lemma lookup_replace_property_eq o k v :
  is_Some (o !! k) → replace_property k v o !! k = Some v.
Proof.
  induction o as [|[j x] o IH]; simpl; intros [y Hy]; [discriminate|].
  rewrite lookup_cons in Hy. destruct (decide (j = k)) as [->|Hne].
  - rewrite lookup_cons. by rewrite decide_True.
  - rewrite lookup_cons, decide_False by done. eauto.
Qed.

Lemma lookup_replace_property_ne o k j v :
  k ≠ j → replace_property k v o !! j = o !! j.
Proof.
  intros Hne. induction o as [|[i x] o IH]; simpl; [reflexivity|].
  destruct (decide (i = k)) as [->|Hik]; rewrite !lookup_cons.
  - by rewrite !decide_False.
  - destruct (decide (i = j)); [reflexivity | exact IH].
Qed.

Lemma lookup_insert_index_eq n o k v :
  o !! k = None → insert_index n k v o !! k = Some v.
Proof.
  induction o as [|[j x] o IH]; simpl; intros Hk.
  - rewrite lookup_cons. by rewrite decide_True.
  - rewrite lookup_cons in Hk. destruct (decide (j = k)); [discriminate|].
    destruct (array_index j) as [m|]; [destruct (bool_decide (m < n)%N)|];
      rewrite lookup_cons.
    + rewrite decide_False by done. auto.
    + by rewrite decide_True.
    + by rewrite decide_True.
Qed.

Lemma lookup_insert_index_ne n o k j v :
  k ≠ j → insert_index n k v o !! j = o !! j.
Proof.
  intros Hne. induction o as [|[i x] o IH]; simpl.
  - rewrite lookup_cons. by rewrite decide_False.
  - destruct (array_index i) as [m|]; [destruct (bool_decide (m < n)%N)|].
    + rewrite !lookup_cons. destruct (decide (i = j)); [reflexivity | exact IH].
    + rewrite (lookup_cons ((i, x) :: o)). by rewrite decide_False.
    + rewrite (lookup_cons ((i, x) :: o)). by rewrite decide_False.
Qed.

Lemma lookup_snoc_eq o k v : o !! k = None → (o ++ [(k, v)]) !! k = Some v.
Proof.
  induction o as [|[j x] o IH]; simpl; intros Hk.
  - rewrite lookup_cons. by rewrite decide_True.
  - rewrite lookup_cons in Hk |- *. destruct (decide (j = k)); [discriminate | auto].
Qed.

Lemma lookup_snoc_ne o k j v : k ≠ j → (o ++ [(k, v)]) !! j = o !! j.
Proof.
  intros Hne. induction o as [|[i x] o IH]; simpl.
  - rewrite lookup_cons. by rewrite decide_False.
  - rewrite !lookup_cons. destruct (decide (i = j)); [reflexivity | exact IH].
Qed.

(** Reading back what was assigned: the key holds the value, unless it
    is [__proto__] and was no own property. *)
Lemma lookup_assign_eq o k v :
  k ≠ "__proto__" ∨ is_Some (o !! k) → <[k := v]> o !! k = Some v.
Proof.
  intros Hk. unfold insert, object_insert, assign.
  destruct (o !! k) as [x|] eqn:Hlookup.
  - apply lookup_replace_property_eq. rewrite Hlookup. eauto.
  - destruct Hk as [Hk | [? [=]]]. rewrite decide_False by done.
    destruct (array_index k).
    + by apply lookup_insert_index_eq.
    + by apply lookup_snoc_eq.
Qed.

Lemma lookup_assign_ne o k j v : k ≠ j → <[k := v]> o !! j = o !! j.
Proof.
  intros Hne. unfold insert, object_insert, assign.
  destruct (o !! k) as [x|].
  - by apply lookup_replace_property_ne.
  - destruct (decide (k = "__proto__")); [reflexivity|].
    destruct (array_index k).
    + by apply lookup_insert_index_ne.
    + by apply lookup_snoc_ne.
Qed.





End Objects.

(** ** Role resolution *)

Section RoleResolver.

Variable E : Externals.

Lemma find_roleArn_some (r : string) (rs : list Role) :
  (∃ role, role ∈ rs ∧ roleArn role = r) →
  ∃ role, find (fun role => bool_decide (Some (roleArn role) = Some r)) rs = Some role
          ∧ role ∈ rs ∧ roleArn role = r.
Proof.
  intros (role & Hin & Harn).
  destruct (find _ rs) as [found|] eqn:Hfind.
  - apply find_some in Hfind as [Hin' Heq].
    apply bool_decide_eq_true in Heq. exists found.
    split; [reflexivity|]. split; [by apply list_elem_of_In | congruence].
  - exfalso. apply list_elem_of_In in Hin.
    pose proof (find_none _ _ Hfind _ Hin) as Hno. simpl in Hno.
    apply bool_decide_eq_false in Hno. congruence.
Qed.

Lemma find_roleArn_none (r : string) (rs : list Role) :
  (∀ role, role ∈ rs → roleArn role ≠ r) →
  find (fun role => bool_decide (Some (roleArn role) = Some r)) rs = None.
Proof.
  intros Hno. destruct (find _ rs) as [found|] eqn:Hfind; [|reflexivity].
  apply find_some in Hfind as [Hin Heq]. apply bool_decide_eq_true in Heq.
  exfalso. apply (Hno found); [by apply list_elem_of_In | congruence].
Qed.

(** C5 (as amended): when the parser yields the roles [rs] and a
    non-empty identifier [r] is requested that some role of [rs] carries,
    [prepareRoleWithSAML] returns exactly one role, a member of [rs] whose
    [roleArn] is [r], with the parser's assertion; it logs one debug line
    and changes nothing else. *)
Theorem resolve_requested_role_found (response r : string) (rs : list Role)
    (assertion : string) (w : World) :
  parseSamlResponse E response (Some r) = Ok (rs, assertion) →
  r ≠ "" →
  (∃ role, role ∈ rs ∧ roleArn role = r) →
  ∃ role, role ∈ rs ∧ roleArn role = r ∧
    prepareRoleWithSAML E response (Some r) w =
      (Ok (mkRoleSet [role] assertion),
       record_event (EvLog Debug "Found custom role ARN %s with principal ARN %s") w).
Proof.
  intros Hparse Hr Hex.
  destruct (find_roleArn_some r rs Hex) as (role & Hfind & Hin & Harn).
  exists role. split; [exact Hin|]. split; [exact Harn|].
  unfold prepareRoleWithSAML. run. rewrite Hparse. simpl.
  unfold str_truthy. rewrite bool_decide_eq_true_2 by exact Hr. simpl.
  rewrite Hfind. reflexivity.
Qed.

(** C6 (as amended): when the parser yields the roles [rs] and a
    non-empty identifier [r] is requested that no role of [rs] carries,
    [prepareRoleWithSAML] throws [RoleNotFoundError] carrying all of
    [rs], and leaves the world as it was. *)
Theorem resolve_requested_role_absent (response r : string) (rs : list Role)
    (assertion : string) (w : World) :
  parseSamlResponse E response (Some r) = Ok (rs, assertion) →
  r ≠ "" →
  (∀ role, role ∈ rs → roleArn role ≠ r) →
  prepareRoleWithSAML E response (Some r) w = (Throw (RoleNotFoundError rs), w).
Proof.
  intros Hparse Hr Hno.
  unfold prepareRoleWithSAML. run. rewrite Hparse. simpl.
  unfold str_truthy. rewrite bool_decide_eq_true_2 by exact Hr. simpl.
  rewrite (find_roleArn_none r rs Hno). reflexivity.
Qed.

(** C7: when no role is requested, [prepareRoleWithSAML] returns all the
    roles the parser yields, in the parser's order, with the parser's
    assertion; the files and the clock are as before, and the only call
    that leaves the process is one debug log line. *)
Theorem resolve_no_request (response : string) (rs : list Role)
    (assertion : string) (w : World) :
  parseSamlResponse E response None = Ok (rs, assertion) →
  ∃ w', prepareRoleWithSAML E response None w = (Ok (mkRoleSet rs assertion), w')
        ∧ files w' = files w
        ∧ now w' = now w
        ∧ trace w' = trace w ++
            [EvLog Debug "A custom role ARN not been set so returning all parsed roles"].
Proof.
  intros Hparse. eexists. split.
  - unfold prepareRoleWithSAML. run. rewrite Hparse. reflexivity.
  - repeat split.
Qed.

End RoleResolver.

Lemma resolve_requested_role_found_witness :
  ∃ role, role ∈ [Demo.role_A; Demo.role_B] ∧ roleArn role = "arn:role/B" ∧
    prepareRoleWithSAML Demo.externals "response" (Some "arn:role/B") Demo.world =
      (Ok (mkRoleSet [role] "assertion"),
       record_event (EvLog Debug "Found custom role ARN %s with principal ARN %s") Demo.world).
Proof.
  apply (resolve_requested_role_found Demo.externals "response" "arn:role/B"
           [Demo.role_A; Demo.role_B] "assertion" Demo.world).
  - reflexivity.
  - discriminate.
  - exists Demo.role_B. split; [|reflexivity]. apply list_elem_of_In. simpl. tauto.
Defined.

(** An empty identifier is not looked up: the whole set comes back,
    although one of its roles carries that identifier. *)
Lemma resolve_found_fails_on_empty_identifier :
  (∃ role, role ∈ [Demo.role_blank; Demo.role_B] ∧ roleArn role = "") ∧
  ¬ ∃ role w',
      prepareRoleWithSAML (Demo.externals_for [Demo.role_blank; Demo.role_B])
        "response" (Some "") Demo.world = (Ok (mkRoleSet [role] "assertion"), w').
Proof.
  split.
  - exists Demo.role_blank. split; [|reflexivity]. apply list_elem_of_In. simpl. tauto.
  - intros (role & w' & H). vm_compute in H. discriminate H.
Qed.

Lemma resolve_requested_role_absent_witness :
  prepareRoleWithSAML Demo.externals "response" (Some "arn:role/Z") Demo.world =
    (Throw (RoleNotFoundError [Demo.role_A; Demo.role_B]), Demo.world).
Proof.
  apply (resolve_requested_role_absent Demo.externals "response" "arn:role/Z"
           [Demo.role_A; Demo.role_B] "assertion" Demo.world).
  - reflexivity.
  - discriminate.
  - intros role Hin. apply list_elem_of_In in Hin. simpl in Hin.
    destruct Hin as [<-|[<-|[]]]; discriminate.
Defined.

(** An empty identifier absent from the set raises nothing: the whole
    set comes back. *)
Lemma resolve_absent_fails_on_empty_identifier :
  (∀ role, role ∈ [Demo.role_A; Demo.role_B] → roleArn role ≠ "") ∧
  (prepareRoleWithSAML Demo.externals "response" (Some "") Demo.world).1
    = Ok (mkRoleSet [Demo.role_A; Demo.role_B] "assertion") ∧
  (prepareRoleWithSAML Demo.externals "response" (Some "") Demo.world).1
    ≠ Throw (RoleNotFoundError [Demo.role_A; Demo.role_B]).
Proof.
  split; [|split].
  - intros role Hin. apply list_elem_of_In in Hin. simpl in Hin.
    destruct Hin as [<-|[<-|[]]]; discriminate.
  - reflexivity.
  - discriminate.
Qed.

Lemma resolve_no_request_witness :
  ∃ w', prepareRoleWithSAML Demo.externals "response" None Demo.world =
          (Ok (mkRoleSet [Demo.role_A; Demo.role_B] "assertion"), w')
        ∧ files w' = files Demo.world
        ∧ now w' = now Demo.world
        ∧ trace w' = trace Demo.world ++
            [EvLog Debug "A custom role ARN not been set so returning all parsed roles"].
Proof.
  apply (resolve_no_request Demo.externals "response" [Demo.role_A; Demo.role_B]
           "assertion" Demo.world).
  reflexivity.
Defined.


(** ** Objects: assignments to two keys *)

Section ObjectsMore.

Implicit Types (o : object) (k j : string) (v : jsval).

Lemma assign_proto o v : o !! "__proto__" = None → <["__proto__" := v]> o = o.
Proof.
  intros Hnone. unfold insert, object_insert, assign. by rewrite Hnone.
Qed.







End ObjectsMore.
(** ** The profile store: reading *)

Section ProfileStoreLoad.

Variable E : Externals.

Lemma fs_readFile_spec (path : string) (w : World) :
  fs_readFile path w =
    (match files w !! path with
     | None => Throw (SystemError "ENOENT")
     | Some (FFail c) => Throw (SystemError c)
     | Some FDir => Throw (SystemError "EISDIR")
     | Some (FData s) => Ok s
     end, record_event (EvReadFile path) w).
Proof.
  unfold fs_readFile. run. destruct (files w !! path) as [[s| |c]|]; reflexivity.
Qed.


Lemma loadCredentials_absent (path : string) (profile : option string) (w : World) :
  files w !! path = None →
  loadCredentials E path profile w =
    (Ok JUndefined,
     record_event (EvLog Debug "Credentials file does not exist at %s")
       (record_event (EvReadFile path) w)).
Proof.
  intros Hfile. unfold loadCredentials, bind, try_catch.
  rewrite fs_readFile_spec, Hfile. reflexivity.
Qed.

Lemma loadCredentials_rejected (path : string) (profile : option string) (e : error)
    (w w1 : World) :
  fs_readFile path w = (Throw e, w1) →
  error_code e ≠ Some "ENOENT" →
  loadCredentials E path profile w = (Throw e, w1).
Proof.
  intros Hread Hcode. unfold loadCredentials, bind, try_catch.
  rewrite Hread. simpl. rewrite bool_decide_eq_false_2 by exact Hcode. reflexivity.
Qed.

(** A load reads: it leaves the files and the clock as they are, and its
    result does not depend on what was logged before. *)
Lemma loadCredentials_reads (path : string) (profile : option string) (w : World) :
  files (loadCredentials E path profile w).2 = files w
  ∧ now (loadCredentials E path profile w).2 = now w.
Proof.
  unfold loadCredentials, bind, try_catch. rewrite fs_readFile_spec.
  destruct (files w !! path) as [[text| |c]|]; simpl.
  - destruct (opt_truthy str_truthy profile); split; reflexivity.
  - split; reflexivity.
  - destruct (bool_decide (Some c = Some "ENOENT")); split; reflexivity.
  - split; reflexivity.
Qed.

Lemma loadCredentials_after (ev : event) (path : string) (profile : option string)
    (w : World) :
  (loadCredentials E path profile (record_event ev w)).1 =
    (loadCredentials E path profile w).1.
Proof.
  unfold loadCredentials, bind, try_catch. rewrite !fs_readFile_spec. simpl.
  destruct (files w !! path) as [[text| |c]|]; simpl.
  - destruct (opt_truthy str_truthy profile); reflexivity.
  - reflexivity.
  - destruct (bool_decide (Some c = Some "ENOENT")); reflexivity.
  - reflexivity.
Qed.

End ProfileStoreLoad.

(** ** The session validity check *)

Section SessionValidity.

Variable E : Externals.

Lemma validity_of_loaded (this : CredentialsManager) (path : string)
    (profile : option string) (credentials : jsval) (w : World) :
  (loadCredentials E path profile w).1 = Ok credentials →
  let expiration := get credentials "aws_session_expiration" in
  let adjusted := sub (Date_getTime E expiration) (Num (sessionExpirationDelta this)) in
  (getSessionExpirationFromCredentials E this path profile w).1 =
    Ok (if truthy credentials && truthy expiration
        then mkValidity (gt adjusted (Num (now w))) (Some adjusted)
        else mkValidity false None).
Proof.
  intros Hload expiration adjusted.
  unfold getSessionExpirationFromCredentials, bind, logger_debug, emit.
  pose proof (loadCredentials_after E
                (EvLog Debug "Attempting to retrieve session expiration credentials")
                path profile w) as Hvalue.
  pose proof (loadCredentials_reads E path profile
                (record_event
                   (EvLog Debug "Attempting to retrieve session expiration credentials") w))
    as [_ Hnow].
  destruct (loadCredentials E path profile (record_event _ w)) as [r w1].
  simpl in Hvalue, Hnow. rewrite Hvalue, Hload. fold expiration. fold adjusted.
  destruct (truthy credentials); [|reflexivity]. simpl.
  destruct (truthy expiration); [|reflexivity]. simpl.
  unfold Date_now. rewrite Hnow.
  destruct (gt adjusted (Num (now w))); reflexivity.
Qed.

(** C8: where no file exists at [path], [loadCredentials] returns
    [undefined] and raises nothing, while a read rejected with any other
    error is rejected with the same error;
    [getSessionExpirationFromCredentials] on that path returns
    [{isValid: false, expiresAt: null}], and it returns the same when the
    profile loaded has no [aws_session_expiration]. *)
Theorem missing_file_is_absent :
  (∀ path profile w,
     files w !! path = None →
     (loadCredentials E path profile w).1 = Ok JUndefined)
  ∧ (∀ path profile e w w1,
       fs_readFile path w = (Throw e, w1) →
       error_code e ≠ Some "ENOENT" →
       loadCredentials E path profile w = (Throw e, w1))
  ∧ (∀ this path profile w,
       files w !! path = None →
       (getSessionExpirationFromCredentials E this path profile w).1 =
         Ok (mkValidity false None))
  ∧ (∀ this path profile entry w,
       (loadCredentials E path profile w).1 = Ok (JObj entry) →
       entry !! "aws_session_expiration" = None →
       (getSessionExpirationFromCredentials E this path profile w).1 =
         Ok (mkValidity false None)).
Proof.
  split; [|split; [|split]].
  - intros path profile w Hfile. by rewrite loadCredentials_absent.
  - intros path profile e w w1. apply loadCredentials_rejected.
  - intros this path profile w Hfile.
    rewrite (validity_of_loaded this path profile JUndefined w); [reflexivity|].
    by rewrite loadCredentials_absent.
  - intros this path profile entry w Hload Hexp.
    rewrite (validity_of_loaded this path profile (JObj entry) w Hload).
    simpl. unfold member. rewrite Hexp. reflexivity.
Qed.

Lemma gt_spec (a b : jsnum) :
  gt a b = true ↔ ∃ x y, a = Num x ∧ b = Num y ∧ x > y.
Proof.
  split.
  - destruct a as [|x], b as [|y]; simpl; try discriminate.
    intros H. apply bool_decide_eq_true in H. eauto.
  - intros (x & y & -> & -> & H). simpl. by apply bool_decide_eq_true.
Qed.


End SessionValidity.

Lemma missing_file_is_absent_witness :
  (loadCredentials Demo.externals Demo.path (Some "p1") Demo.world).1 = Ok JUndefined
  ∧ loadCredentials Demo.externals Demo.path (Some "p1") Demo.locked_world =
      (Throw (SystemError "EACCES"), record_event (EvReadFile Demo.path) Demo.locked_world)
  ∧ (getSessionExpirationFromCredentials Demo.externals constructor Demo.path (Some "p1")
       Demo.world).1 = Ok (mkValidity false None)
  ∧ (getSessionExpirationFromCredentials Demo.externals constructor Demo.path (Some "p3")
       (Demo.world_with (Demo.encode Demo.store_without_expiration))).1 =
      Ok (mkValidity false None).
Proof.
  destruct (missing_file_is_absent Demo.externals) as (Habsent & Hrejected & Hcheck & Hfield).
  split; [|split; [|split]].
  - apply Habsent. reflexivity.
  - apply Hrejected; [reflexivity | discriminate].
  - apply Hcheck. reflexivity.
  - apply (Hfield constructor Demo.path (Some "p3")
             (<["aws_access_key_id" := JStr "AKIA3"]> ∅)).
    + vm_compute. reflexivity.
    + reflexivity.
Defined.



(** ** The profile store: writing *)

Section ProfileStoreSave.

Variable E : Externals.

Lemma profile_entry_fields (a s e t : string) :
  profile_entry a s e t !! "aws_access_key_id" = Some (JStr a)
  ∧ profile_entry a s e t !! "aws_secret_access_key" = Some (JStr s)
  ∧ profile_entry a s e t !! "aws_session_expiration" = Some (JStr e)
  ∧ profile_entry a s e t !! "aws_session_token" = Some (JStr t).
Proof. repeat split; reflexivity. Qed.

(** The course of a save, call by call. *)
Lemma saveCredentials_cases (path profile : string) (fields : CredentialFields)
    (w : World) :
  saveCredentials E path profile fields w =
    let w0 := record_event (EvReadFile path) w in
    let absent :=
      record_event (EvLog Debug "Credentials file does not exist at %s") w0 in
    let continue (w1 : World) :=
      match sessionExpiration fields with
      | NaN => (Throw RangeError, w1)
      | Num t =>
          let text' := ini_encode E (merged E path profile fields (ISO_8601 E t) w) in
          let w2 := record_event (EvMkdir (dirname E path)) w1 in
          match mkdir_effect (dirname E path) (files w) with
          | Throw e => (Throw e, w2)
          | Ok fs1 =>
              let w3 := record_event (EvWriteFile path text') (set_files fs1 w2) in
              match writeFile_steps path text' fs1 with
              | Throw e => (Throw e, w3)
              | Ok (_, written) =>
                  (Ok tt,
                   record_event
                     (EvLog Debug "The credentials have been stored in %s under AWS profile %s with contents %o")
                     (set_files written w3))
              end
          end
      end in
    match files w !! path with
    | None => continue absent
    | Some (FData _) => continue w0
    | Some FDir => (Throw (SystemError "EISDIR"), w0)
    | Some (FFail c) =>
        if bool_decide (c = "ENOENT") then continue absent
        else (Throw (SystemError c), w0)
    end.
Proof.
  unfold saveCredentials, loadCredentials, merged, stored, bind, try_catch.
  rewrite fs_readFile_spec.
  destruct (files w !! path) as [[text| |c]|] eqn:Hfile; simpl.
  - destruct (sessionExpiration fields) as [|t]; simpl; [reflexivity|].
    unfold fs_mkdir, fs_writeFile. run.
    destruct (mkdir_effect (dirname E path) (files w)) as [fs1|e]; simpl; [|reflexivity].
    destruct (writeFile_steps path _ fs1) as [[opened written]|e]; reflexivity.
  - reflexivity.
  - destruct (decide (c = "ENOENT")) as [->|Hc].
    + simpl. destruct (sessionExpiration fields) as [|t]; simpl; [reflexivity|].
      unfold fs_mkdir, fs_writeFile. run.
      destruct (mkdir_effect (dirname E path) (files w)) as [fs1|e]; simpl; [|reflexivity].
      destruct (writeFile_steps path _ fs1) as [[opened written]|e]; reflexivity.
    + rewrite !bool_decide_eq_false_2 by congruence. reflexivity.
  - destruct (sessionExpiration fields) as [|t]; simpl; [reflexivity|].
    unfold fs_mkdir, fs_writeFile. run.
    destruct (mkdir_effect (dirname E path) (files w)) as [fs1|e]; simpl; [|reflexivity].
    destruct (writeFile_steps path _ fs1) as [[opened written]|e]; reflexivity.
Qed.

Lemma mkdir_effect_made (dir : string) (fs : gmap string fnode) :
  fs !! dir = None ∨ fs !! dir = Some FDir →
  mkdir_effect dir fs = Ok (made dir fs).
Proof. unfold mkdir_effect, made. by intros [-> | ->]. Qed.

Lemma mkdir_effect_ok (dir : string) (fs fs1 : gmap string fnode) :
  mkdir_effect dir fs = Ok fs1 →
  (fs !! dir = None ∨ fs !! dir = Some FDir) ∧ fs1 = made dir fs.
Proof.
  unfold mkdir_effect, made. destruct (fs !! dir) as [[?| |?]|]; intros [=]; subst; eauto.
Qed.

Lemma made_lookup_ne (dir path : string) (fs : gmap string fnode) :
  dir ≠ path → made dir fs !! path = fs !! path.
Proof.
  intros Hne. unfold made. destruct (fs !! dir); [reflexivity|].
  by rewrite lookup_insert_ne.
Qed.

(** What a save does when nothing is rejected. *)
Lemma saveCredentials_ok (path profile : string) (fields : CredentialFields) (t : Z)
    (w : World) :
  (files w !! path = None ∨ ∃ text, files w !! path = Some (FData text)) →
  sessionExpiration fields = Num t →
  (files w !! dirname E path = None ∨ files w !! dirname E path = Some FDir) →
  dirname E path ≠ path →
  let text' := ini_encode E (merged E path profile fields (ISO_8601 E t) w) in
  saveCredentials E path profile fields w =
    (Ok tt,
     mkWorld (<[path := FData text']> (made (dirname E path) (files w))) (now w)
       (trace w ++ [EvReadFile path] ++
        (if files w !! path is Some _ then []
         else [EvLog Debug "Credentials file does not exist at %s"]) ++
        [EvMkdir (dirname E path); EvWriteFile path text';
         EvLog Debug "The credentials have been stored in %s under AWS profile %s with contents %o"])).
Proof.
  intros Hfile Hdate Hdir Hne text'. subst text'.
  rewrite saveCredentials_cases. simpl.
  rewrite Hdate, (mkdir_effect_made _ _ Hdir).
  assert (Hwrite : ∀ c, writeFile_steps path c (made (dirname E path) (files w)) =
                        Ok (<[path := FData ""]> (made (dirname E path) (files w)),
                            <[path := FData c]> (made (dirname E path) (files w)))).
  { intros c. unfold writeFile_steps. rewrite made_lookup_ne by exact Hne.
    by destruct Hfile as [-> | [text ->]]. }
  rewrite Hwrite.
  destruct Hfile as [Hnone | [text Hdata]].
  - rewrite Hnone. unfold set_files, record_event. simpl.
    by rewrite <- !app_assoc.
  - rewrite Hdata. unfold set_files, record_event. simpl.
    by rewrite <- !app_assoc.
Qed.

(** A save returns only when the expiration is a valid date, the path
    holds a file or nothing, and the path of the parent directory, which
    is another path, holds a directory or nothing. *)
Lemma saveCredentials_return (path profile : string) (fields : CredentialFields)
    (w w' : World) :
  saveCredentials E path profile fields w = (Ok tt, w') →
  ∃ t, sessionExpiration fields = Num t
       ∧ (files w !! path = None ∨ ∃ text, files w !! path = Some (FData text))
       ∧ (files w !! dirname E path = None ∨ files w !! dirname E path = Some FDir)
       ∧ dirname E path ≠ path.
Proof.
  rewrite saveCredentials_cases. simpl.
  assert (Hcontinue : ∀ w1 c,
    files w !! path = None ∨ (∃ text, files w !! path = Some (FData text))
      ∨ files w !! path = Some (FFail c) →
    match sessionExpiration fields with
    | NaN => (Throw RangeError, w1)
    | Num t =>
        match mkdir_effect (dirname E path) (files w) with
        | Throw e => (Throw e, record_event (EvMkdir (dirname E path)) w1)
        | Ok fs1 =>
            match writeFile_steps path
                    (ini_encode E (merged E path profile fields (ISO_8601 E t) w)) fs1 with
            | Throw e =>
                (Throw e,
                 record_event
                   (EvWriteFile path
                      (ini_encode E (merged E path profile fields (ISO_8601 E t) w)))
                   (set_files fs1 (record_event (EvMkdir (dirname E path)) w1)))
            | Ok (_, written) =>
                (Ok tt,
                 record_event
                   (EvLog Debug "The credentials have been stored in %s under AWS profile %s with contents %o")
                   (set_files written
                      (record_event
                         (EvWriteFile path
                            (ini_encode E (merged E path profile fields (ISO_8601 E t) w)))
                         (set_files fs1 (record_event (EvMkdir (dirname E path)) w1)))))
            end
        end
    end = (Ok tt, w') →
    ∃ t, sessionExpiration fields = Num t
         ∧ (files w !! path = None ∨ ∃ text, files w !! path = Some (FData text))
         ∧ (files w !! dirname E path = None ∨ files w !! dirname E path = Some FDir)
         ∧ dirname E path ≠ path).
  { intros w1 c Hpath.
    destruct (sessionExpiration fields) as [|t]; [discriminate|].
    destruct (mkdir_effect (dirname E path) (files w)) as [fs1|e] eqn:Hmk; [|discriminate].
    apply mkdir_effect_ok in Hmk as [Hdir ->].
    destruct (decide (dirname E path = path)) as [Heq|Hne].
    - unfold writeFile_steps, made. rewrite Heq in *.
      destruct Hdir as [Hdir | Hdir]; rewrite Hdir; simpl;
        [rewrite lookup_insert_eq | rewrite Hdir]; discriminate.
    - unfold writeFile_steps. rewrite made_lookup_ne by exact Hne.
      destruct Hpath as [Hpath | [[text Hpath] | Hpath]]; rewrite Hpath;
        [| |discriminate]; intros _; exists t; eauto 10. }
  destruct (files w !! path) as [[text| |c]|] eqn:Hfile.
  - apply (Hcontinue _ ""). eauto.
  - discriminate.
  - destruct (bool_decide (c = "ENOENT")); [|discriminate].
    intros Hsave. destruct (Hcontinue _ c (or_intror (or_intror eq_refl)) Hsave)
      as (t & Hdate & [Hnone | [text Hdata]] & _); discriminate.
  - apply (Hcontinue _ ""). eauto.
Qed.

(** A save returns with the world of [saveCredentials_ok]. *)
Lemma saveCredentials_returned (path profile : string) (fields : CredentialFields)
    (w w' : World) :
  saveCredentials E path profile fields w = (Ok tt, w') →
  ∃ t, sessionExpiration fields = Num t
       ∧ dirname E path ≠ path
       ∧ w' = mkWorld
                (<[path := FData (ini_encode E
                                    (merged E path profile fields (ISO_8601 E t) w))]>
                   (made (dirname E path) (files w)))
                (now w)
                (trace w ++ [EvReadFile path] ++
                 (if files w !! path is Some _ then []
                  else [EvLog Debug "Credentials file does not exist at %s"]) ++
                 [EvMkdir (dirname E path);
                  EvWriteFile path
                    (ini_encode E (merged E path profile fields (ISO_8601 E t) w));
                  EvLog Debug "The credentials have been stored in %s under AWS profile %s with contents %o"]).
Proof.
  intros Hsave.
  destruct (saveCredentials_return _ _ _ _ _ Hsave) as (t & Hdate & Hpath & Hdir & Hne).
  rewrite (saveCredentials_ok path profile fields t w Hpath Hdate Hdir Hne) in Hsave.
  exists t. split; [exact Hdate|]. split; [exact Hne|]. by injection Hsave as <-.
Qed.





End ProfileStoreSave.







(** ** The credential exchange *)

Section CredentialExchanger.

Variable E : Externals.

Lemma saveCredentials_trace (path profile : string) (fields : CredentialFields)
    (w : World) :
  ∃ evs, trace (saveCredentials E path profile fields w).2 = trace w ++ evs
         ∧ Forall (fun ev => silent ev = true) evs.
Proof.
  rewrite saveCredentials_cases. simpl.
  destruct (files w !! path) as [[text| |c]|]; simpl;
    try destruct (bool_decide (c = "ENOENT")); simpl;
    try (destruct (sessionExpiration fields) as [|t]; simpl);
    try (destruct (mkdir_effect (dirname E path) (files w)) as [fs1|e]; simpl);
    try (destruct (writeFile_steps path _ fs1) as [[opened written]|e]; simpl);
    unfold record_event, set_files; simpl; rewrite <- ?app_assoc; simpl;
    (eexists; split; [reflexivity | repeat constructor]).
Qed.

Lemma exchangeAndSave_trace (assertion file profile : string) (role : Role)
    (duration : option jsnum) (w : World) :
  ∃ evs,
    trace (exchangeAndSave E assertion file profile role duration w).2 =
      trace w ++
      EvAssumeRoleWithSAML
        (mkStsRequest duration (principalArn role) (roleArn role) assertion) :: evs
    ∧ Forall (fun ev => silent ev = true) evs.
Proof.
  unfold exchangeAndSave. run.
  destruct (STS_assumeRoleWithSAML E _) as [credentials|e]; simpl.
  - match goal with |- context [saveCredentials E ?p ?q ?f ?w1] =>
      destruct (saveCredentials_trace p q f w1) as (evs & Htrace & Hsilent)
    end.
    rewrite Htrace. simpl. rewrite <- !app_assoc. simpl.
    eexists. split; [reflexivity|]. constructor; [reflexivity | exact Hsilent].
  - exists []. split; [reflexivity | constructor].
Qed.

Lemma sessionDurationFor_default (role : Role) (custom : option jsnum) (w : World) :
  opt_truthy num_truthy custom = false →
  sessionDurationFor E role custom w = (Ok (sessionDuration role), w).
Proof. intros Hfalsy. unfold sessionDurationFor. rewrite Hfalsy. reflexivity. Qed.

Lemma sessionDurationFor_custom (role : Role) (d : jsnum) (w : World) :
  num_truthy d = true →
  sessionDurationFor E role (Some d) w =
    match IAM_getRole E (name role) with
    | Ok max =>
        if gt d (Num max)
        then (Ok (Some (Num max)),
              record_event (EvLog Warn clamp_warning)
                (record_event (EvGetRole (name role)) w))
        else (Ok (Some d), record_event (EvGetRole (name role)) w)
    | Throw e => (Throw e, record_event (EvGetRole (name role)) w)
    end.
Proof.
  intros Htruthy. unfold sessionDurationFor. simpl. rewrite Htruthy. run.
  destruct (IAM_getRole E (name role)) as [max|e]; simpl; [|reflexivity].
  destruct (gt d (Num max)); reflexivity.
Qed.

(** C4 (as amended): when a custom duration other than 0 and NaN is
    requested, the role is looked up first.  If the lookup answers a
    maximum that the requested duration exceeds, a warning is logged and
    the call goes on to the exchange, invoked with the maximum; if it
    does not exceed it, the exchange is invoked with the requested
    duration, without warning; if the lookup is rejected, so is the call.
    When no custom duration is requested, the exchange is invoked with
    the role's own duration, and no lookup and no warning happen in the
    whole call. *)
Theorem session_duration_policy (assertion file profile : string) (role : Role)
    (w : World) :
  (∀ d max,
     num_truthy d = true →
     IAM_getRole E (name role) = Ok max →
     gt d (Num max) = true →
     let w1 := record_event (EvLog Warn clamp_warning)
                 (record_event (EvGetRole (name role)) w) in
     assumeRoleWithSAML E assertion file profile role (Some d) w =
       exchangeAndSave E assertion file profile role (Some (Num max)) w1
     ∧ ∃ evs,
         trace (assumeRoleWithSAML E assertion file profile role (Some d) w).2 =
           trace w ++
           [EvGetRole (name role); EvLog Warn clamp_warning;
            EvAssumeRoleWithSAML
              (mkStsRequest (Some (Num max)) (principalArn role) (roleArn role) assertion)]
           ++ evs
         ∧ Forall (fun ev => silent ev = true) evs)
  ∧ (∀ d max,
       num_truthy d = true →
       IAM_getRole E (name role) = Ok max →
       gt d (Num max) = false →
       ∃ evs,
         trace (assumeRoleWithSAML E assertion file profile role (Some d) w).2 =
           trace w ++
           [EvGetRole (name role);
            EvAssumeRoleWithSAML
              (mkStsRequest (Some d) (principalArn role) (roleArn role) assertion)]
           ++ evs
         ∧ Forall (fun ev => silent ev = true) evs)
  ∧ (∀ d e,
       num_truthy d = true →
       IAM_getRole E (name role) = Throw e →
       assumeRoleWithSAML E assertion file profile role (Some d) w =
         (Throw e, record_event (EvGetRole (name role)) w))
  ∧ (∃ evs,
       trace (assumeRoleWithSAML E assertion file profile role None w).2 =
         trace w ++
         [EvAssumeRoleWithSAML
            (mkStsRequest (sessionDuration role) (principalArn role) (roleArn role)
                          assertion)]
         ++ evs
       ∧ Forall (fun ev => silent ev = true) evs).
Proof.
  split; [|split; [|split]].
  - intros d max Htruthy Hmax Hgt w1.
    assert (Hcall : assumeRoleWithSAML E assertion file profile role (Some d) w =
                    exchangeAndSave E assertion file profile role (Some (Num max)) w1).
    { unfold assumeRoleWithSAML, bind.
      rewrite (sessionDurationFor_custom role d w Htruthy), Hmax, Hgt. reflexivity. }
    split; [exact Hcall|]. rewrite Hcall.
    destruct (exchangeAndSave_trace assertion file profile role (Some (Num max)) w1)
      as (evs & Htrace & Hsilent).
    exists evs. split; [|exact Hsilent].
    rewrite Htrace. subst w1. simpl. rewrite <- !app_assoc. reflexivity.
  - intros d max Htruthy Hmax Hgt.
    unfold assumeRoleWithSAML, bind.
    rewrite (sessionDurationFor_custom role d w Htruthy), Hmax, Hgt.
    destruct (exchangeAndSave_trace assertion file profile role (Some d)
                (record_event (EvGetRole (name role)) w)) as (evs & Htrace & Hsilent).
    exists evs. split; [|exact Hsilent].
    rewrite Htrace. simpl. rewrite <- !app_assoc. reflexivity.
  - intros d e Htruthy Hthrow.
    unfold assumeRoleWithSAML, bind.
    rewrite (sessionDurationFor_custom role d w Htruthy), Hthrow. reflexivity.
  - unfold assumeRoleWithSAML, bind.
    rewrite (sessionDurationFor_default role None w eq_refl).
    destruct (exchangeAndSave_trace assertion file profile role (sessionDuration role) w)
      as (evs & Htrace & Hsilent).
    exists evs. split; [exact Htrace | exact Hsilent].
Qed.

(** C10: a call whose custom duration is 0, NaN or undefined is the call
    without custom duration: same result, same world.  The exchange is
    invoked with the role's own duration, and no lookup and no warning
    happen in the whole call. *)
Theorem falsy_duration_is_no_request (assertion file profile : string) (role : Role)
    (custom : option jsnum) (w : World) :
  opt_truthy num_truthy custom = false →
  assumeRoleWithSAML E assertion file profile role custom w =
    assumeRoleWithSAML E assertion file profile role None w
  ∧ ∃ evs,
      trace (assumeRoleWithSAML E assertion file profile role custom w).2 =
        trace w ++
        [EvAssumeRoleWithSAML
           (mkStsRequest (sessionDuration role) (principalArn role) (roleArn role)
                         assertion)]
        ++ evs
      ∧ Forall (fun ev => silent ev = true) evs.
Proof.
  intros Hfalsy.
  assert (Hcall : assumeRoleWithSAML E assertion file profile role custom w =
                  exchangeAndSave E assertion file profile role (sessionDuration role) w).
  { unfold assumeRoleWithSAML, bind.
    by rewrite (sessionDurationFor_default role custom w Hfalsy). }
  split.
  - rewrite Hcall. unfold assumeRoleWithSAML, bind.
    by rewrite (sessionDurationFor_default role None w eq_refl).
  - rewrite Hcall.
    destruct (exchangeAndSave_trace assertion file profile role (sessionDuration role) w)
      as (evs & Htrace & Hsilent).
    exists evs. split; [exact Htrace | exact Hsilent].
Qed.

End CredentialExchanger.

Lemma session_duration_policy_witness :
  (∃ evs,
     trace (assumeRoleWithSAML Demo.externals "assertion" Demo.path "p1" Demo.role_A
              (Some (Num 43200)) Demo.world).2 =
       trace Demo.world ++
       [EvGetRole "A"; EvLog Warn clamp_warning;
        EvAssumeRoleWithSAML
          (mkStsRequest (Some (Num 7200)) "arn:idp/X" "arn:role/A" "assertion")]
       ++ evs
     ∧ Forall (fun ev => silent ev = true) evs)
  ∧ (∃ evs,
       trace (assumeRoleWithSAML Demo.externals "assertion" Demo.path "p1" Demo.role_A
                (Some (Num 900)) Demo.world).2 =
         trace Demo.world ++
         [EvGetRole "A";
          EvAssumeRoleWithSAML
            (mkStsRequest (Some (Num 900)) "arn:idp/X" "arn:role/A" "assertion")]
         ++ evs
       ∧ Forall (fun ev => silent ev = true) evs)
  ∧ (∃ evs,
       trace (assumeRoleWithSAML Demo.externals "assertion" Demo.path "p1" Demo.role_A
                None Demo.world).2 =
         trace Demo.world ++
         [EvAssumeRoleWithSAML
            (mkStsRequest (Some (Num 3600)) "arn:idp/X" "arn:role/A" "assertion")]
         ++ evs
       ∧ Forall (fun ev => silent ev = true) evs).
Proof.
  destruct (session_duration_policy Demo.externals "assertion" Demo.path "p1" Demo.role_A
              Demo.world) as (Hclamp & Hkeep & _ & Hdefault).
  split; [|split].
  - apply (Hclamp (Num 43200) 7200); reflexivity.
  - apply (Hkeep (Num 900) 7200); reflexivity.
  - exact Hdefault.
Defined.

(** A requested duration of 0: no lookup is made, and the exchange is
    invoked with the role's own 3600 seconds. *)
Lemma zero_duration_is_not_looked_up :
  Forall (fun ev => match ev with EvGetRole _ => False | _ => True end)
    (trace (assumeRoleWithSAML Demo.externals "assertion" Demo.path "p1" Demo.role_A
              (Some (Num 0)) Demo.world).2)
  ∧ head (trace (assumeRoleWithSAML Demo.externals "assertion" Demo.path "p1" Demo.role_A
                   (Some (Num 0)) Demo.world).2) =
      Some (EvAssumeRoleWithSAML
              (mkStsRequest (Some (Num 3600)) "arn:idp/X" "arn:role/A" "assertion")).
Proof.
  split.
  - vm_compute. repeat constructor.
  - vm_compute. reflexivity.
Qed.

Lemma falsy_duration_is_no_request_witness :
  assumeRoleWithSAML Demo.externals "assertion" Demo.path "p1" Demo.role_A
    (Some (Num 0)) Demo.world =
    assumeRoleWithSAML Demo.externals "assertion" Demo.path "p1" Demo.role_A
      None Demo.world
  ∧ ∃ evs,
      trace (assumeRoleWithSAML Demo.externals "assertion" Demo.path "p1" Demo.role_A
               (Some (Num 0)) Demo.world).2 =
        trace Demo.world ++
        [EvAssumeRoleWithSAML
           (mkStsRequest (Some (Num 3600)) "arn:idp/X" "arn:role/A" "assertion")]
        ++ evs
      ∧ Forall (fun ev => silent ev = true) evs.
Proof.
  apply (falsy_duration_is_no_request Demo.externals "assertion" Demo.path "p1"
           Demo.role_A (Some (Num 0)) Demo.world).
  reflexivity.
Defined.

(** * Further properties of the methods *)

(** ** Role resolution *)

Section RoleResolverMore.

Variable E : Externals.

(** X1: whatever is requested, a RoleSet that [prepareRoleWithSAML]
    returns is made of roles the parser yielded, with the parser's
    assertion: all of them when the request is falsy, and exactly one,
    carrying the requested ARN, when it is not. *)
Theorem resolve_result_within_parsed (response : string) (r : option string)
    (R : RoleSet) (w w' : World) :
  prepareRoleWithSAML E response r w = (Ok R, w') →
  ∃ rs,
    parseSamlResponse E response r = Ok (rs, samlAssertion R)
    ∧ (∀ role, role ∈ roles R → role ∈ rs)
    ∧ (opt_truthy str_truthy r = false → roles R = rs)
    ∧ (opt_truthy str_truthy r = true →
       ∃ role, roles R = [role] ∧ Some (roleArn role) = r).
Proof.
  unfold prepareRoleWithSAML. run.
  destruct (parseSamlResponse E response r) as [[rs assertion]|e]; simpl; [|discriminate].
  destruct (opt_truthy str_truthy r) eqn:Hr; simpl.
  - destruct (find _ rs) as [found|] eqn:Hfind; simpl; [|discriminate].
    intros [= <- _]. simpl. exists rs.
    apply find_some in Hfind as [Hin Heq]. apply bool_decide_eq_true in Heq.
    split; [reflexivity|]. split; [|split; [discriminate|]].
    + intros role Hrole. apply list_elem_of_singleton in Hrole as ->.
      by apply list_elem_of_In.
    + intros _. eauto.
  - intros [= <- _]. simpl. exists rs.
    split; [reflexivity|]. split; [tauto|]. split; [reflexivity | discriminate].
Qed.

(** X2: when several roles carry the requested ARN, the one returned is
    the first in the parser's order. *)
Theorem resolve_picks_first_match (response r : string) (before after : list Role)
    (role : Role) (assertion : string) (w : World) :
  parseSamlResponse E response (Some r) = Ok (before ++ role :: after, assertion) →
  r ≠ "" →
  roleArn role = r →
  (∀ other, other ∈ before → roleArn other ≠ r) →
  (prepareRoleWithSAML E response (Some r) w).1 = Ok (mkRoleSet [role] assertion).
Proof.
  intros Hparse Hr Harn Hbefore.
  unfold prepareRoleWithSAML. run. rewrite Hparse. simpl.
  unfold str_truthy. rewrite bool_decide_eq_true_2 by exact Hr. simpl.
  assert (Hfind : find (fun x => bool_decide (Some (roleArn x) = Some r))
                    (before ++ role :: after) = Some role).
  { clear Hparse. induction before as [|b before IH]; simpl.
    - rewrite bool_decide_eq_true_2 by congruence. reflexivity.
    - rewrite bool_decide_eq_false_2.
      + apply IH. intros other Hin. apply Hbefore. by right.
      + intros [= Heq]. apply (Hbefore b); [by left | exact Heq]. }
  rewrite Hfind. reflexivity.
Qed.

(** X3: a requested ARN that is the empty string is no request: all the
    roles the parser yields come back, and nothing is looked up. *)
Theorem resolve_empty_identifier_returns_all (response : string) (rs : list Role)
    (assertion : string) (w : World) :
  parseSamlResponse E response (Some "") = Ok (rs, assertion) →
  prepareRoleWithSAML E response (Some "") w =
    (Ok (mkRoleSet rs assertion),
     record_event
       (EvLog Debug "A custom role ARN not been set so returning all parsed roles") w).
Proof.
  intros Hparse. unfold prepareRoleWithSAML. run. rewrite Hparse. reflexivity.
Qed.

(** X4: [prepareRoleWithSAML] leaves the files and the clock as they
    are and makes no call besides at most one debug line; when it throws
    (the parser's rejection, or [RoleNotFoundError]) the world is exactly
    as before, and the parser's rejection is passed on unchanged. *)
Theorem resolve_only_logs (response : string) (r : option string) (w : World) :
  let out := prepareRoleWithSAML E response r w in
  files out.2 = files w
  ∧ now out.2 = now w
  ∧ (trace out.2 = trace w ∨ ∃ format, trace out.2 = trace w ++ [EvLog Debug format])
  ∧ (∀ e, out.1 = Throw e → out.2 = w)
  ∧ (∀ e, parseSamlResponse E response r = Throw e → out = (Throw e, w)).
Proof.
  unfold prepareRoleWithSAML. run.
  destruct (parseSamlResponse E response r) as [[rs assertion]|e]; simpl.
  - destruct (opt_truthy str_truthy r); simpl.
    + destruct (find _ rs) as [found|]; simpl.
      * repeat split; eauto; discriminate.
      * repeat split; eauto; discriminate.
    + repeat split; eauto; discriminate.
  - repeat split; eauto. intros e' [= <-]. reflexivity.
Qed.

End RoleResolverMore.

Lemma resolve_result_within_parsed_witness :
  ∃ rs,
    parseSamlResponse Demo.externals "response" (Some "arn:role/B")
      = Ok (rs, "assertion")
    ∧ (∀ role, role ∈ [Demo.role_B] → role ∈ rs)
    ∧ (opt_truthy str_truthy (Some "arn:role/B") = false → [Demo.role_B] = rs)
    ∧ (opt_truthy str_truthy (Some "arn:role/B") = true →
       ∃ role, [Demo.role_B] = [role] ∧ Some (roleArn role) = Some "arn:role/B").
Proof.
  apply (resolve_result_within_parsed Demo.externals "response" (Some "arn:role/B")
           (mkRoleSet [Demo.role_B] "assertion") Demo.world
           (record_event (EvLog Debug "Found custom role ARN %s with principal ARN %s")
              Demo.world)).
  reflexivity.
Defined.

Lemma resolve_picks_first_match_witness :
  (prepareRoleWithSAML (Demo.externals_for [Demo.role_B; Demo.role_A; Demo.role_A'])
     "response" (Some "arn:role/A") Demo.world).1 =
    Ok (mkRoleSet [Demo.role_A] "assertion").
Proof.
  apply (resolve_picks_first_match
           (Demo.externals_for [Demo.role_B; Demo.role_A; Demo.role_A'])
           "response" "arn:role/A" [Demo.role_B] [Demo.role_A'] Demo.role_A "assertion"
           Demo.world).
  - reflexivity.
  - discriminate.
  - reflexivity.
  - intros other Hin. apply list_elem_of_singleton in Hin as ->. discriminate.
Defined.

Lemma resolve_empty_identifier_returns_all_witness :
  prepareRoleWithSAML Demo.externals "response" (Some "") Demo.world =
    (Ok (mkRoleSet [Demo.role_A; Demo.role_B] "assertion"),
     record_event
       (EvLog Debug "A custom role ARN not been set so returning all parsed roles")
       Demo.world).
Proof.
  apply (resolve_empty_identifier_returns_all Demo.externals "response"
           [Demo.role_A; Demo.role_B] "assertion" Demo.world).
  reflexivity.
Defined.

Lemma resolve_only_logs_witness :
  (prepareRoleWithSAML Demo.externals "response" (Some "arn:role/Z") Demo.world).2
    = Demo.world.
Proof.
  destruct (resolve_only_logs Demo.externals "response" (Some "arn:role/Z") Demo.world)
    as (_ & _ & _ & Hthrow & _).
  apply (Hthrow (RoleNotFoundError [Demo.role_A; Demo.role_B])). reflexivity.
Defined.

(** ** Reading the store and checking validity *)

Section SessionValidityMore.

Variable E : Externals.

(** What a load returns depends on the files only. *)
Lemma loadCredentials_value (path : string) (profile : option string) (w : World) :
  (loadCredentials E path profile w).1 =
    match files w !! path with
    | None => Ok JUndefined
    | Some (FData text) =>
        Ok (if opt_truthy str_truthy profile
            then member (ini_parse E text) (prop_key profile)
            else JObj (ini_parse E text))
    | Some FDir => Throw (SystemError "EISDIR")
    | Some (FFail c) =>
        if bool_decide (c = "ENOENT") then Ok JUndefined else Throw (SystemError c)
    end.
Proof.
  unfold loadCredentials, bind, try_catch. rewrite fs_readFile_spec.
  destruct (files w !! path) as [[text| |c]|]; simpl; [| | |reflexivity].
  - destruct (opt_truthy str_truthy profile); reflexivity.
  - reflexivity.
  - destruct (decide (c = "ENOENT")) as [->|Hc].
    + reflexivity.
    + rewrite !bool_decide_eq_false_2 by congruence. reflexivity.
Qed.

(** The result of the check, from the result of the load. *)
Lemma validity_value (this : CredentialsManager) (path : string)
    (profile : option string) (w : World) :
  (getSessionExpirationFromCredentials E this path profile w).1 =
    match (loadCredentials E path profile w).1 with
    | Throw e => Throw e
    | Ok credentials =>
        let expiration := get credentials "aws_session_expiration" in
        let adjusted := sub (Date_getTime E expiration)
                            (Num (sessionExpirationDelta this)) in
        Ok (if truthy credentials && truthy expiration
            then mkValidity (gt adjusted (Num (now w))) (Some adjusted)
            else mkValidity false None)
    end.
Proof.
  destruct (loadCredentials E path profile w).1 as [credentials|e] eqn:Hload.
  - by apply validity_of_loaded.
  - unfold getSessionExpirationFromCredentials, bind, logger_debug, emit.
    pose proof (loadCredentials_after E
                  (EvLog Debug "Attempting to retrieve session expiration credentials")
                  path profile w) as Hvalue.
    destruct (loadCredentials E path profile (record_event _ w)) as [r w1].
    simpl in Hvalue. rewrite Hvalue, Hload. reflexivity.
Qed.

(** X5: a profile name that the file does not hold is not an error.
    For such a name [loadCredentials] returns what a plain object gives
    for a property it does not own: the member of [Object.prototype] of
    that name when there is one ([constructor], [toString], [__proto__]
    and the like), and [undefined] for every other name.  In both cases
    the validity check answers [{isValid: false, expiresAt: null}]. *)
Theorem load_missing_profile (this : CredentialsManager) (path profile text : string)
    (w : World) :
  files w !! path = Some (FData text) →
  profile ≠ "" →
  ini_parse E text !! profile = None →
  (profile ∈ Object_prototype →
   (loadCredentials E path (Some profile) w).1 = Ok (JInherited profile))
  ∧ (profile ∉ Object_prototype →
     (loadCredentials E path (Some profile) w).1 = Ok JUndefined)
  ∧ (getSessionExpirationFromCredentials E this path (Some profile) w).1 =
      Ok (mkValidity false None).
Proof.
  intros Hfile Hname Hmissing.
  assert (Hload : (loadCredentials E path (Some profile) w).1 =
                  Ok (if bool_decide (profile ∈ Object_prototype)
                      then JInherited profile else JUndefined)).
  { rewrite loadCredentials_value, Hfile. simpl. unfold str_truthy.
    rewrite bool_decide_eq_true_2 by exact Hname. unfold member. by rewrite Hmissing. }
  split; [|split].
  - intros Hin. by rewrite Hload, bool_decide_eq_true_2.
  - intros Hout. by rewrite Hload, bool_decide_eq_false_2.
  - rewrite validity_value, Hload. by destruct (bool_decide _).
Qed.


(** X7: a result that says valid always carries an expiry, a number
    strictly greater than [Date.now()]; a result without expiry is never
    valid. *)
Theorem valid_result_has_future_expiry (this : CredentialsManager) (path : string)
    (profile : option string) (v : ValidityResult) (w : World) :
  (getSessionExpirationFromCredentials E this path profile w).1 = Ok v →
  (isValid v = true → ∃ t, expiresAt v = Some (Num t) ∧ t > now w)
  ∧ (expiresAt v = None → isValid v = false).
Proof.
  rewrite validity_value.
  destruct (loadCredentials E path profile w).1 as [credentials|e]; [|discriminate].
  simpl. destruct (truthy credentials && truthy _); intros [= <-]; simpl.
  - split; [|discriminate]. intros Hvalid.
    apply gt_spec in Hvalid as (x & y & Hx & [= <-] & Hgt).
    exists x. by rewrite Hx.
  - split; [discriminate | reflexivity].
Qed.

(** X8: a stored expiration that is truthy but is no date (its time
    value is NaN) raises nothing: the check answers not valid, with NaN
    as [expiresAt]. *)
Theorem validity_of_unparsable_date (this : CredentialsManager) (path : string)
    (profile : option string) (entry : object) (expiration : jsval)
    (w : World) :
  (loadCredentials E path profile w).1 = Ok (JObj entry) →
  entry !! "aws_session_expiration" = Some expiration →
  truthy expiration = true →
  Date_getTime E expiration = NaN →
  (getSessionExpirationFromCredentials E this path profile w).1 =
    Ok (mkValidity false (Some NaN)).
Proof.
  intros Hload Hexp Htruthy Hnan. rewrite validity_value, Hload. simpl.
  unfold member. rewrite Hexp. simpl. rewrite Htruthy, Hnan. reflexivity.
Qed.

(** X9: validity only decreases.  Over the same files, a check that
    says valid at some time, with some delta, says valid at every earlier
    time and with every smaller delta. *)
Theorem validity_is_antitone (this this' : CredentialsManager) (path : string)
    (profile : option string) (v v' : ValidityResult) (w w' : World) :
  files w' = files w →
  now w ≤ now w' →
  sessionExpirationDelta this ≤ sessionExpirationDelta this' →
  (getSessionExpirationFromCredentials E this path profile w).1 = Ok v →
  (getSessionExpirationFromCredentials E this' path profile w').1 = Ok v' →
  isValid v' = true →
  isValid v = true.
Proof.
  intros Hfiles Hnow Hdelta. rewrite !validity_value, !loadCredentials_value, Hfiles.
  destruct (match files w !! path with None => _ | Some _ => _ end)
    as [credentials|e]; [|discriminate].
  simpl. destruct (truthy credentials && truthy _).
  - intros [= <-] [= <-]. simpl. intros Hvalid.
    destruct (Date_getTime E _) as [|x]; simpl in *; [discriminate|].
    apply bool_decide_eq_true in Hvalid. apply bool_decide_eq_true. lia.
  - intros [= <-] [= <-]. simpl. discriminate.
Qed.

End SessionValidityMore.

Lemma load_missing_profile_witness :
  (loadCredentials Demo.externals Demo.path (Some "constructor")
     (Demo.world_with (Demo.encode (Demo.store "p1" "2023-11-14T22:13:51.000Z")))).1
    = Ok (JInherited "constructor")
  ∧ (loadCredentials Demo.externals Demo.path (Some "p9")
       (Demo.world_with (Demo.encode (Demo.store "p1" "2023-11-14T22:13:51.000Z")))).1
      = Ok JUndefined
  ∧ (getSessionExpirationFromCredentials Demo.externals constructor Demo.path (Some "p9")
       (Demo.world_with (Demo.encode (Demo.store "p1" "2023-11-14T22:13:51.000Z")))).1 =
      Ok (mkValidity false None).
Proof.
  destruct (load_missing_profile Demo.externals constructor Demo.path "constructor"
              (Demo.encode (Demo.store "p1" "2023-11-14T22:13:51.000Z"))
              (Demo.world_with (Demo.encode (Demo.store "p1" "2023-11-14T22:13:51.000Z"))))
    as (Hinherited & _ & _);
    [reflexivity | discriminate | vm_compute; reflexivity |].
  destruct (load_missing_profile Demo.externals constructor Demo.path "p9"
              (Demo.encode (Demo.store "p1" "2023-11-14T22:13:51.000Z"))
              (Demo.world_with (Demo.encode (Demo.store "p1" "2023-11-14T22:13:51.000Z"))))
    as (_ & Hundefined & Hcheck);
    [reflexivity | discriminate | vm_compute; reflexivity |].
  split; [|split].
  - apply Hinherited. apply list_elem_of_In. simpl. tauto.
  - apply Hundefined. intros Hin. apply list_elem_of_In in Hin. simpl in Hin.
    repeat destruct Hin as [Hin | Hin]; try discriminate Hin. exact Hin.
  - exact Hcheck.
Defined.


Lemma valid_result_has_future_expiry_witness :
  ∃ t, Some (Num 1700000001000) = Some (Num t) ∧ t > 1700000000000.
Proof.
  destruct (valid_result_has_future_expiry Demo.externals constructor Demo.path
              (Some "p1") (mkValidity true (Some (Num 1700000001000)))
              (Demo.world_with (Demo.encode (Demo.store "p1" "2023-11-14T22:13:51.000Z"))))
    as [Hvalid _].
  - vm_compute. reflexivity.
  - apply Hvalid. reflexivity.
Defined.

Lemma validity_of_unparsable_date_witness :
  (getSessionExpirationFromCredentials Demo.externals constructor Demo.path (Some "p1")
     (Demo.world_with (Demo.encode (Demo.store "p1" "tomorrow")))).1 =
    Ok (mkValidity false (Some NaN)).
Proof.
  apply (validity_of_unparsable_date Demo.externals constructor Demo.path (Some "p1")
           (profile_entry "AKIA1" "secret1" "tomorrow" "token1") (JStr "tomorrow")).
  - vm_compute. reflexivity.
  - vm_compute. reflexivity.
  - reflexivity.
  - vm_compute. reflexivity.
Defined.

Lemma validity_is_antitone_witness :
  isValid (mkValidity true (Some (Num 1700000001000))) = true.
Proof.
  apply (validity_is_antitone Demo.externals constructor (mkCredentialsManager 30500)
           Demo.path (Some "p1")
           (mkValidity true (Some (Num 1700000001000)))
           (mkValidity true (Some (Num 1700000000500)))
           (Demo.world_with (Demo.encode (Demo.store "p1" "2023-11-14T22:13:51.000Z")))
           (mkWorld (files (Demo.world_with
                              (Demo.encode (Demo.store "p1" "2023-11-14T22:13:51.000Z"))))
                    1700000000400 [])).
  - reflexivity.
  - vm_compute. discriminate.
  - vm_compute. discriminate.
  - vm_compute. reflexivity.
  - vm_compute. reflexivity.
  - reflexivity.
Defined.


(** ** Writing the store *)

Section ProfileStoreSaveMore.

Variable E : Externals.

Lemma merged_files (path profile : string) (fields : CredentialFields)
    (expiration : string) (w w0 : World) :
  files w0 = files w →
  merged E path profile fields expiration w0 = merged E path profile fields expiration w.
Proof. intros Hfiles. unfold merged, stored. by rewrite Hfiles. Qed.

(** The entry of a profile, property by property, in the order of the
    four assignments. *)
Lemma profile_entry_list (a s e t : string) :
  profile_entry a s e t =
    [("aws_access_key_id", JStr a); ("aws_secret_access_key", JStr s);
     ("aws_session_expiration", JStr e); ("aws_session_token", JStr t)].
Proof. reflexivity. Qed.


(** The files a save can leave: those it found, those with the parent
    directory made, or those with the text written as well. *)
Lemma saveCredentials_files (path profile : string) (fields : CredentialFields)
    (w : World) :
  let out := saveCredentials E path profile fields w in
  now out.2 = now w
  ∧ (files out.2 = files w
     ∨ files out.2 = made (dirname E path) (files w)
     ∨ dirname E path ≠ path
       ∧ ∃ text', files out.2 = <[path := FData text']> (made (dirname E path) (files w))).
Proof.
  simpl. rewrite saveCredentials_cases. simpl.
  assert (Hcontinue : ∀ w1, files w1 = files w → now w1 = now w →
    let out :=
      match sessionExpiration fields with
      | NaN => (Throw RangeError, w1)
      | Num t =>
          match mkdir_effect (dirname E path) (files w) with
          | Throw e => (Throw e, record_event (EvMkdir (dirname E path)) w1)
          | Ok fs1 =>
              match writeFile_steps path
                      (ini_encode E (merged E path profile fields (ISO_8601 E t) w)) fs1 with
              | Throw e =>
                  (Throw e,
                   record_event
                     (EvWriteFile path
                        (ini_encode E (merged E path profile fields (ISO_8601 E t) w)))
                     (set_files fs1 (record_event (EvMkdir (dirname E path)) w1)))
              | Ok (_, written) =>
                  (Ok tt,
                   record_event
                     (EvLog Debug "The credentials have been stored in %s under AWS profile %s with contents %o")
                     (set_files written
                        (record_event
                           (EvWriteFile path
                              (ini_encode E (merged E path profile fields (ISO_8601 E t) w)))
                           (set_files fs1 (record_event (EvMkdir (dirname E path)) w1)))))
              end
          end
      end in
    now out.2 = now w
    ∧ (files out.2 = files w
       ∨ files out.2 = made (dirname E path) (files w)
       ∨ dirname E path ≠ path
         ∧ ∃ text', files out.2 =
                      <[path := FData text']> (made (dirname E path) (files w)))).
  { intros w1 Hfiles Hnow. simpl.
    destruct (sessionExpiration fields) as [|t]; simpl; [by eauto|].
    destruct (mkdir_effect (dirname E path) (files w)) as [fs1|e] eqn:Hmk; simpl;
      [|by eauto].
    apply mkdir_effect_ok in Hmk as [Hdir ->].
    destruct (writeFile_steps path _ _) as [[opened written]|e] eqn:Hwrite; simpl;
      [|by eauto].
    split; [exact Hnow|]. right. right.
    assert (Hne : dirname E path ≠ path).
    { intros Heq. unfold writeFile_steps, made in Hwrite. rewrite Heq in *.
      destruct Hdir as [Hdir | Hdir]; rewrite Hdir in Hwrite; simpl in Hwrite;
        [rewrite lookup_insert_eq in Hwrite | rewrite Hdir in Hwrite];
        discriminate. }
    split; [exact Hne|]. eexists.
    unfold writeFile_steps in Hwrite.
    destruct (made (dirname E path) (files w) !! path) as [[?| |?]|];
      by inversion Hwrite. }
  destruct (files w !! path) as [[text| |c]|].
  - by apply Hcontinue.
  - by eauto.
  - destruct (bool_decide (c = "ENOENT")); [by apply Hcontinue | by eauto].
  - by apply Hcontinue.
Qed.

(** X10: a save replaces the whole entry of its profile.  Whatever the
    entry held before, beside or instead of the four fields, the entry
    handed to the encoder has the four keys and no other. *)
Theorem save_replaces_whole_entry (path profile text : string)
    (fields : CredentialFields) (old : object) (k : string) (v : jsval)
    (w w' : World) :
  files w !! path = Some (FData text) →
  ini_parse E text !! profile = Some (JObj old) →
  old !! k = Some v →
  k ∉ ({["aws_access_key_id"; "aws_secret_access_key";
         "aws_session_expiration"; "aws_session_token"]} : gset string) →
  saveCredentials E path profile fields w = (Ok tt, w') →
  ∃ t entry,
    sessionExpiration fields = Num t
    ∧ files w' !! path =
        Some (FData (ini_encode E (merged E path profile fields (ISO_8601 E t) w)))
    ∧ merged E path profile fields (ISO_8601 E t) w !! profile = Some (JObj entry)
    ∧ dom entry = {["aws_access_key_id"; "aws_secret_access_key";
                    "aws_session_expiration"; "aws_session_token"]}
    ∧ entry !! k = None.
Proof.
  intros Hfile Hold Hk Hnotin Hsave.
  destruct (saveCredentials_returned E _ _ _ _ _ Hsave) as (t & Hdate & Hne & ->).
  exists t. eexists. split; [exact Hdate|].
  split; [simpl; by rewrite lookup_insert_eq|].
  split.
  { unfold merged. apply lookup_assign_eq. right.
    unfold stored. rewrite Hfile, Hold. eauto. }
  rewrite profile_entry_list. split.
  - unfold dom, object_dom. simpl. set_solver.
  - rewrite !lookup_cons.
    repeat (destruct (decide _) as [<-|?]; [exfalso; apply Hnotin; set_solver|]).
    reflexivity.
Qed.

(** X11: a save touches the credentials file and, at most, the
    directories above it.  Whatever its outcome, the clock is as before,
    every path that is neither [path] nor above it (its [dirname], the
    [dirname] of that, and so on) holds what it held, and the path of the
    parent directory holds what it held or, having held nothing, holds a
    directory. *)
Theorem save_touches_only_path (path profile other : string)
    (fields : CredentialFields) (w : World) :
  (∀ n, other ≠ Nat.iter n (dirname E) path) →
  let out := saveCredentials E path profile fields w in
  files out.2 !! other = files w !! other
  ∧ now out.2 = now w
  ∧ (files out.2 !! dirname E path = files w !! dirname E path
     ∨ files w !! dirname E path = None ∧ files out.2 !! dirname E path = Some FDir).
Proof.
  intros Hother. simpl.
  pose proof (Hother 0%nat) as Hpath. pose proof (Hother 1%nat) as Hdir.
  simpl in Hpath, Hdir.
  assert (Hmade : made (dirname E path) (files w) !! dirname E path
                    = files w !! dirname E path
                  ∨ files w !! dirname E path = None
                    ∧ made (dirname E path) (files w) !! dirname E path = Some FDir).
  { unfold made. destruct (files w !! dirname E path) eqn:Hlookup; [by left|].
    right. by rewrite lookup_insert_eq. }
  destruct (saveCredentials_files path profile fields w)
    as (Hnow & [-> | [-> | (Hne & text' & ->)]]).
  - eauto.
  - rewrite made_lookup_ne by done. eauto.
  - rewrite !lookup_insert_ne, made_lookup_ne by done. eauto.
Qed.

(** X12: whatever the outcome of a save, the only file it can have
    written is [path], at most once, and the write comes right after the
    [fs.mkdir] of the parent directory; the first call it makes is the
    read of [path]. *)
Theorem save_writes_after_mkdir (path profile : string) (fields : CredentialFields)
    (w : World) :
  ∃ evs,
    trace (saveCredentials E path profile fields w).2 = trace w ++ EvReadFile path :: evs
    ∧ (∀ p c, EvWriteFile p c ∈ evs →
         p = path
         ∧ ∃ before after,
             evs = before ++ EvMkdir (dirname E path) :: EvWriteFile path c :: after
             ∧ Forall (fun ev => ∃ format, ev = EvLog Debug format) (before ++ after)).
Proof.
  rewrite saveCredentials_cases. simpl.
  destruct (files w !! path) as [[text| |c]|]; simpl;
    try destruct (bool_decide (c = "ENOENT")); simpl;
    try (destruct (sessionExpiration fields) as [|t]; simpl);
    try (destruct (mkdir_effect (dirname E path) (files w)) as [fs1|e]; simpl);
    try (destruct (writeFile_steps path _ fs1) as [[opened written]|e]; simpl);
    unfold record_event, set_files; simpl; rewrite <- ?app_assoc; simpl;
    (eexists; split; [reflexivity|]);
    intros p c' Hin; apply list_elem_of_In in Hin; simpl in Hin;
    repeat (destruct Hin as [Hin|Hin]; try discriminate Hin);
    try contradiction;
    injection Hin as <- <-; (split; [reflexivity|]);
    first [ eexists [], _; split; [reflexivity | repeat constructor; eauto]
          | eexists [_], _; split; [reflexivity | repeat constructor; eauto] ].
Qed.




(** X15: a save whose expiration is an invalid date throws RangeError
    after the read: no directory is made, nothing is written, and the
    files are as before. *)
Theorem save_of_invalid_date (path profile : string) (fields : CredentialFields)
    (w : World) :
  (files w !! path = None ∨ ∃ text, files w !! path = Some (FData text)) →
  sessionExpiration fields = NaN →
  saveCredentials E path profile fields w =
    (Throw RangeError,
     mkWorld (files w) (now w)
       (trace w ++ EvReadFile path ::
        (if files w !! path is Some _ then []
         else [EvLog Debug "Credentials file does not exist at %s"]))).
Proof.
  intros Hpath Hdate. rewrite saveCredentials_cases. simpl. rewrite Hdate.
  destruct Hpath as [Hnone | [text Hdata]].
  - rewrite Hnone. unfold record_event. simpl. by rewrite <- app_assoc.
  - rewrite Hdata. reflexivity.
Qed.

(** X16: a store that cannot be read is not overwritten: when the read
    of [path] is rejected with a code other than ENOENT, the save throws
    that error and makes no other call. *)
Theorem save_of_unreadable_store (path profile : string) (fields : CredentialFields)
    (c : string) (w : World) :
  files w !! path = Some (FFail c) →
  c ≠ "ENOENT" →
  saveCredentials E path profile fields w =
    (Throw (SystemError c), record_event (EvReadFile path) w).
Proof.
  intros Hfile Hc. rewrite saveCredentials_cases. simpl. rewrite Hfile.
  by rewrite bool_decide_eq_false_2.
Qed.


(** X21: when [fs.mkdir] of the parent directory is rejected, the save
    throws that error and [fs.writeFile] is never called: the files are
    as before. *)
Theorem save_of_rejected_mkdir (path profile : string) (fields : CredentialFields)
    (t : Z) (c : string) (w : World) :
  (files w !! path = None ∨ ∃ text, files w !! path = Some (FData text)) →
  sessionExpiration fields = Num t →
  files w !! dirname E path = Some (FFail c) →
  ∃ w',
    saveCredentials E path profile fields w = (Throw (SystemError c), w')
    ∧ files w' = files w
    ∧ ∀ p content, EvWriteFile p content ∈ trace w' → EvWriteFile p content ∈ trace w.
Proof.
  intros Hpath Hdate Hdir. rewrite saveCredentials_cases. simpl.
  rewrite Hdate. unfold mkdir_effect. rewrite Hdir.
  destruct Hpath as [Hnone | [text Hdata]].
  - rewrite Hnone. eexists. split; [reflexivity|]. split; [reflexivity|].
    intros p content. simpl. rewrite !elem_of_app, !list_elem_of_singleton.
    intros [[[Hin | [=]] | [=]] | [=]]. exact Hin.
  - rewrite Hdata. eexists. split; [reflexivity|]. split; [reflexivity|].
    intros p content. simpl. rewrite !elem_of_app, !list_elem_of_singleton.
    intros [[Hin | [=]] | [=]]. exact Hin.
Qed.

End ProfileStoreSaveMore.

Lemma save_replaces_whole_entry_witness :
  ∃ t entry,
    sessionExpiration Demo.fields = Num t
    ∧ files (saveCredentials Demo.externals Demo.path "p1" Demo.fields
               (Demo.world_with (Demo.encode Demo.store_with_region))).2 !! Demo.path =
        Some (FData (ini_encode Demo.externals
                       (merged Demo.externals Demo.path "p1" Demo.fields
                          (ISO_8601 Demo.externals t)
                          (Demo.world_with (Demo.encode Demo.store_with_region)))))
    ∧ merged Demo.externals Demo.path "p1" Demo.fields (ISO_8601 Demo.externals t)
        (Demo.world_with (Demo.encode Demo.store_with_region)) !! "p1" = Some (JObj entry)
    ∧ dom entry = {["aws_access_key_id"; "aws_secret_access_key";
                    "aws_session_expiration"; "aws_session_token"]}
    ∧ entry !! "region" = None.
Proof.
  apply (save_replaces_whole_entry Demo.externals Demo.path "p1"
           (Demo.encode Demo.store_with_region) Demo.fields
           (<["region" := JStr "eu-west-1"]>
              (profile_entry "AKIA1" "secret1" "2023-11-14T22:13:51.000Z" "token1"))
           "region" (JStr "eu-west-1")
           (Demo.world_with (Demo.encode Demo.store_with_region))).
  - reflexivity.
  - vm_compute. reflexivity.
  - vm_compute. reflexivity.
  - rewrite !not_elem_of_union, !not_elem_of_singleton. repeat split; discriminate.
  - vm_compute. reflexivity.
Defined.

(** The paths above /tmp/credentials. *)
Lemma above_tmp_credentials (n : nat) :
  Nat.iter n Demo.dirname "/tmp/credentials" ∈ ["/tmp/credentials"; "/tmp"; "/"].
Proof.
  induction n as [|n IH]; [by left|].
  simpl. apply list_elem_of_In in IH. apply list_elem_of_In. simpl in IH |- *.
  destruct IH as [<- | [<- | [<- | []]]]; vm_compute; tauto.
Qed.

Lemma save_touches_only_path_witness :
  files (saveCredentials Demo.externals "/tmp/credentials" "p1" Demo.fields
           (Demo.world_with (Demo.encode (Demo.store "p1" "2023-11-14T22:13:51.000Z")))).2
    !! Demo.path =
    Some (FData (Demo.encode (Demo.store "p1" "2023-11-14T22:13:51.000Z"))).
Proof.
  destruct (save_touches_only_path Demo.externals "/tmp/credentials" "p1" Demo.path
              Demo.fields
              (Demo.world_with (Demo.encode (Demo.store "p1" "2023-11-14T22:13:51.000Z"))))
    as (Hfiles & _ & _).
  - intros n Heq. pose proof (above_tmp_credentials n) as Hin.
    simpl in Heq. rewrite <- Heq in Hin.
    apply list_elem_of_In in Hin. simpl in Hin.
    destruct Hin as [Hin | [Hin | [Hin | []]]]; discriminate Hin.
  - rewrite Hfiles. reflexivity.
Defined.



(** Two profiles that are new to the store, saved in the two orders:
    the files differ, each with the profile saved last at its end. *)
Lemma saves_of_new_profiles_keep_their_order :
  files (saveCredentials Demo.externals Demo.path "p2" Demo.fields'
           (saveCredentials Demo.externals Demo.path "p1" Demo.fields Demo.world).2).2
    !! Demo.path ≠
  files (saveCredentials Demo.externals Demo.path "p1" Demo.fields
           (saveCredentials Demo.externals Demo.path "p2" Demo.fields' Demo.world).2).2
    !! Demo.path.
Proof. vm_compute. discriminate. Qed.

Lemma save_of_invalid_date_witness :
  saveCredentials Demo.externals Demo.path "p1"
    (mkCredentialFields "AKIAEXAMPLE" "secret" NaN "token") Demo.world =
    (Throw RangeError,
     mkWorld ∅ 1700000000000
       [EvReadFile Demo.path; EvLog Debug "Credentials file does not exist at %s"]).
Proof.
  apply (save_of_invalid_date Demo.externals Demo.path "p1"
           (mkCredentialFields "AKIAEXAMPLE" "secret" NaN "token") Demo.world).
  - left. reflexivity.
  - reflexivity.
Defined.

Lemma save_of_unreadable_store_witness :
  saveCredentials Demo.externals Demo.path "p1" Demo.fields Demo.locked_world =
    (Throw (SystemError "EACCES"), record_event (EvReadFile Demo.path) Demo.locked_world).
Proof.
  apply (save_of_unreadable_store Demo.externals Demo.path "p1" Demo.fields "EACCES"
           Demo.locked_world).
  - reflexivity.
  - discriminate.
Defined.


(** A save under the profile [__proto__] into a fresh store: it
    returns, and the file it leaves is empty. *)
Lemma save_under_proto_writes_no_profile :
  ∃ w',
    saveCredentials Demo.externals Demo.path "__proto__" Demo.fields Demo.world
      = (Ok tt, w')
    ∧ files w' !! Demo.path = Some (FData "").
Proof. eexists. split; [vm_compute; reflexivity|]. vm_compute. reflexivity. Qed.

Lemma save_of_rejected_mkdir_witness :
  ∃ w',
    saveCredentials Demo.externals Demo.path "p1" Demo.fields
      (mkWorld {["/home/u/.aws" := FFail "EACCES"]} 1700000000000 [])
      = (Throw (SystemError "EACCES"), w')
    ∧ files w' = files (mkWorld {["/home/u/.aws" := FFail "EACCES"]} 1700000000000 [])
    ∧ ∀ p content,
        EvWriteFile p content ∈ trace w' →
        EvWriteFile p content
          ∈ trace (mkWorld {["/home/u/.aws" := FFail "EACCES"]} 1700000000000 []).
Proof.
  apply (save_of_rejected_mkdir Demo.externals Demo.path "p1" Demo.fields 1700003600000
           "EACCES" (mkWorld {["/home/u/.aws" := FFail "EACCES"]} 1700000000000 [])).
  - left. reflexivity.
  - reflexivity.
  - reflexivity.
Defined.

(** ** The exchange, end to end *)

Section CredentialExchangerMore.

Variable E : Externals.

(** Choosing the duration changes neither the files nor the clock. *)
Lemma sessionDurationFor_reads (role : Role) (custom : option jsnum) (w : World) :
  files (sessionDurationFor E role custom w).2 = files w
  ∧ now (sessionDurationFor E role custom w).2 = now w.
Proof.
  unfold sessionDurationFor. destruct (opt_truthy num_truthy custom); [|by split].
  run. destruct (IAM_getRole E (name role)) as [max|e]; simpl; [|by split].
  destruct (opt_gt custom (Num max)); by split.
Qed.

Lemma assumeRoleWithSAML_return (assertion file profile : string) (role : Role)
    (custom : option jsnum) (w w' : World) :
  assumeRoleWithSAML E assertion file profile role custom w = (Ok tt, w') →
  ∃ duration creds w0,
    STS_assumeRoleWithSAML E
      (mkStsRequest duration (principalArn role) (roleArn role) assertion) = Ok creds
    ∧ files w0 = files w
    ∧ now w0 = now w
    ∧ saveCredentials E file profile
        (mkCredentialFields (AccessKeyId creds) (SecretAccessKey creds)
                            (Expiration creds) (SessionToken creds)) w0 = (Ok tt, w').
Proof.
  unfold assumeRoleWithSAML, bind.
  pose proof (sessionDurationFor_reads role custom w) as [Hfiles Hnow].
  destruct (sessionDurationFor E role custom w) as [[duration|e] w1]; [|discriminate].
  simpl in Hfiles, Hnow. unfold exchangeAndSave. run.
  destruct (STS_assumeRoleWithSAML E _) as [creds|e] eqn:Hsts; simpl; [|discriminate].
  intros Hsave. exists duration, creds. eexists.
  split; [exact Hsts|]. split; [|split; [|exact Hsave]]; simpl; assumption.
Qed.

(** X18: when [assumeRoleWithSAML] returns, the token service has
    answered a request for this role's principal and ARN with the given
    assertion, and the credentials file holds the encoding of the stored
    mapping with the profile assigned the four fields of that answer:
    the profile then holds them, unless it is [__proto__], which a plain
    object does not take as a key and which leaves the mapping as it
    was.  The parent directory exists, and every path that is neither
    the file nor above it holds what it held. *)
Theorem assume_persists_credentials (assertion file profile : string) (role : Role)
    (custom : option jsnum) (w w' : World) :
  assumeRoleWithSAML E assertion file profile role custom w = (Ok tt, w') →
  ∃ duration creds t,
    let entry := JObj (profile_entry (AccessKeyId creds) (SecretAccessKey creds)
                                     (ISO_8601 E t) (SessionToken creds)) in
    let written := <[profile := entry]> (stored E file w) in
    STS_assumeRoleWithSAML E
      (mkStsRequest duration (principalArn role) (roleArn role) assertion) = Ok creds
    ∧ Expiration creds = Num t
    ∧ files w' !! file = Some (FData (ini_encode E written))
    ∧ (profile ≠ "__proto__" → written !! profile = Some entry)
    ∧ (profile = "__proto__" → stored E file w !! profile = None →
       written = stored E file w)
    ∧ (∀ k, k ≠ profile → written !! k = stored E file w !! k)
    ∧ files w' !! dirname E file = Some FDir
    ∧ (∀ other, (∀ n, other ≠ Nat.iter n (dirname E) file) →
                files w' !! other = files w !! other).
Proof.
  intros Hcall.
  destruct (assumeRoleWithSAML_return _ _ _ _ _ _ _ Hcall)
    as (duration & creds & w0 & Hsts & Hfiles & Hnow & Hsave).
  destruct (saveCredentials_return E _ _ _ _ _ Hsave) as (t & Hdate & Hpath & Hdir & Hne).
  rewrite (saveCredentials_ok E file profile _ t w0 Hpath Hdate Hdir Hne) in Hsave.
  injection Hsave as <-.
  exists duration, creds, t. simpl. split; [exact Hsts|]. split; [exact Hdate|].
  unfold merged, stored. simpl. rewrite Hfiles in *.
  split; [by rewrite lookup_insert_eq|].
  split; [intros Hproto; apply lookup_assign_eq; by left|].
  split; [intros -> Hnone; by apply assign_proto|].
  split; [intros k Hk; by apply lookup_assign_ne|].
  split.
  - rewrite lookup_insert_ne by done. unfold made.
    destruct Hdir as [Hdir | Hdir]; rewrite Hdir; [by rewrite lookup_insert_eq | done].
  - intros other Hother.
    pose proof (Hother 0%nat) as Hfile. pose proof (Hother 1%nat) as Hparent.
    simpl in Hfile, Hparent.
    by rewrite lookup_insert_ne, made_lookup_ne.
Qed.

(** X19: the three methods compose.  After [assumeRoleWithSAML] has
    returned for a non-empty profile name, the validity check of that
    profile reports the expiration the token service answered, minus the
    delta, and says valid exactly when that is after [Date.now()] ---
    provided the codec reads the written entry back and [new Date] reads
    back the (non-empty) text of [toISOString]. *)
Theorem assume_then_check (this : CredentialsManager) (assertion file profile : string)
    (role : Role) (custom : option jsnum) (w w' : World) :
  assumeRoleWithSAML E assertion file profile role custom w = (Ok tt, w') →
  profile ≠ "" →
  ∃ duration creds t,
    let entry := profile_entry (AccessKeyId creds) (SecretAccessKey creds)
                               (ISO_8601 E t) (SessionToken creds) in
    STS_assumeRoleWithSAML E
      (mkStsRequest duration (principalArn role) (roleArn role) assertion) = Ok creds
    ∧ Expiration creds = Num t
    ∧ (ini_parse E (ini_encode E (<[profile := JObj entry]> (stored E file w))) !! profile
         = Some (JObj entry) →
       ISO_8601 E t ≠ "" →
       Date_getTime E (JStr (ISO_8601 E t)) = Num t →
       (getSessionExpirationFromCredentials E this file (Some profile) w').1 =
         Ok (mkValidity (bool_decide (t - sessionExpirationDelta this > now w))
                        (Some (Num (t - sessionExpirationDelta this))))).
Proof.
  intros Hcall Hname.
  destruct (assumeRoleWithSAML_return _ _ _ _ _ _ _ Hcall)
    as (duration & creds & w0 & Hsts & Hfiles & Hnow & Hsave).
  destruct (saveCredentials_return E _ _ _ _ _ Hsave) as (t & Hdate & Hpath & Hdir & Hne).
  rewrite (saveCredentials_ok E file profile _ t w0 Hpath Hdate Hdir Hne) in Hsave.
  injection Hsave as <-.
  exists duration, creds, t. simpl. split; [exact Hsts|]. split; [exact Hdate|].
  intros Hcodec Hiso Htime.
  rewrite validity_value, loadCredentials_value. simpl.
  rewrite lookup_insert_eq. simpl. unfold str_truthy.
  rewrite bool_decide_eq_true_2 by exact Hname. simpl.
  unfold merged, stored. simpl. rewrite Hfiles.
  unfold member. unfold stored in Hcodec. rewrite Hcodec. simpl.
  destruct (profile_entry_fields (AccessKeyId creds) (SecretAccessKey creds)
              (ISO_8601 E t) (SessionToken creds)) as (_ & _ & Hexp & _).
  unfold member. rewrite Hexp. simpl. unfold str_truthy.
  rewrite bool_decide_eq_true_2 by exact Hiso.
  rewrite Htime, Hnow. reflexivity.
Qed.

(** X20: when the token service rejects the exchange, the call throws
    and the store is not touched: the files are as before and no file
    operation is attempted.  The error is that rejection, unless the role
    lookup was rejected first. *)
Theorem rejected_exchange_writes_nothing (assertion file profile : string) (role : Role)
    (custom : option jsnum) (e : error) (w : World) :
  (∀ req, STS_assumeRoleWithSAML E req = Throw e) →
  let out := assumeRoleWithSAML E assertion file profile role custom w in
  (out.1 = Throw e ∨ ∃ e', IAM_getRole E (name role) = Throw e' ∧ out.1 = Throw e')
  ∧ files out.2 = files w
  ∧ ∃ evs, trace out.2 = trace w ++ evs
           ∧ Forall (fun ev => match ev with
                               | EvReadFile _ | EvMkdir _ | EvWriteFile _ _ => False
                               | _ => True
                               end) evs.
Proof.
  intros Hsts. unfold assumeRoleWithSAML, sessionDurationFor, exchangeAndSave.
  destruct (opt_truthy num_truthy custom); run.
  - destruct (IAM_getRole E (name role)) as [max|e'] eqn:Hiam; simpl.
    + destruct (opt_gt custom (Num max)); simpl; rewrite Hsts; simpl;
        (split; [by left|]; split; [reflexivity|]);
        rewrite <- ?app_assoc; simpl;
        (eexists; split; [reflexivity | repeat constructor]).
    + split; [right; eauto|]. split; [reflexivity|].
      eexists. split; [reflexivity | repeat constructor].
  - rewrite Hsts. simpl. split; [by left|]. split; [reflexivity|].
    eexists. split; [reflexivity | repeat constructor].
Qed.

End CredentialExchangerMore.

Lemma assume_persists_credentials_witness :
  ∃ creds t,
    Expiration creds = Num t
    ∧ files (assumeRoleWithSAML Demo.externals "assertion" Demo.path "p1" Demo.role_A
               (Some (Num 43200)) Demo.world).2 !! Demo.path =
        Some (FData (Demo.encode
                       [("p1", JObj (profile_entry (AccessKeyId creds)
                                       (SecretAccessKey creds) (Demo.iso_8601 t)
                                       (SessionToken creds)))]))
    ∧ files (assumeRoleWithSAML Demo.externals "assertion" Demo.path "p1" Demo.role_A
               (Some (Num 43200)) Demo.world).2 !! "/home/u/.aws" = Some FDir.
Proof.
  destruct (assume_persists_credentials Demo.externals "assertion" Demo.path "p1"
              Demo.role_A (Some (Num 43200)) Demo.world
              (assumeRoleWithSAML Demo.externals "assertion" Demo.path "p1" Demo.role_A
                 (Some (Num 43200)) Demo.world).2)
    as (duration & creds & t & Hsts & Hdate & Hfile & _ & _ & _ & Hdir & _).
  - vm_compute. reflexivity.
  - exists creds, t. split; [exact Hdate|]. split; [|exact Hdir].
    simpl in Hsts. injection Hsts as <-. exact Hfile.
Defined.

Lemma assume_then_check_witness :
  (getSessionExpirationFromCredentials Demo.externals constructor Demo.path (Some "p1")
     (assumeRoleWithSAML Demo.externals "assertion" Demo.path "p1" Demo.role_A
        None Demo.world).2).1 =
    Ok (mkValidity true (Some (Num 1700003570000))).
Proof.
  destruct (assume_then_check Demo.externals constructor "assertion" Demo.path "p1"
              Demo.role_A None Demo.world
              (assumeRoleWithSAML Demo.externals "assertion" Demo.path "p1" Demo.role_A
                 None Demo.world).2)
    as (duration & creds & t & Hsts & Hdate & Hcheck).
  - vm_compute. reflexivity.
  - discriminate.
  - simpl in Hsts. injection Hsts as <-. simpl in Hdate. injection Hdate as <-.
    apply Hcheck.
    + vm_compute. reflexivity.
    + discriminate.
    + vm_compute. reflexivity.
Defined.

Lemma rejected_exchange_writes_nothing_witness :
  (assumeRoleWithSAML Demo.externals_rejecting "assertion" Demo.path "p1" Demo.role_A
     None Demo.world).1 = Throw (ServiceError "ExpiredToken")
  ∧ files (assumeRoleWithSAML Demo.externals_rejecting "assertion" Demo.path "p1"
             Demo.role_A None Demo.world).2 = files Demo.world.
Proof.
  destruct (rejected_exchange_writes_nothing Demo.externals_rejecting "assertion"
              Demo.path "p1" Demo.role_A None (ServiceError "ExpiredToken") Demo.world)
    as (Herror & Hfiles & _).
  - reflexivity.
  - split; [|exact Hfiles].
    destruct Herror as [Herror | (e' & Hiam & _)]; [exact Herror | discriminate Hiam].
Defined.
